(** * GPU coordinator: the arbitration loop of [gpu-coordinator.py]

    A shallow embedding of class [GPUCoordinator]: the process classifier
    ([_is_process_gpu_intensive], [_get_gpu_intensive_processes]), the
    service controller ([_is_vllm_running], [_stop_vllm], [_start_vllm])
    and the polling loop with its cleanup ([run]).

    Everything the program reads from the outside world (the process
    table, the clock, the exit status of [systemctl], signals) is an
    explicit input of the model; clock readings are binary64 floats, as
    [time.time()] returns them; everything it does to the outside world
    (commands, sleeps, log records) is recorded in a trace of events. *)

From Stdlib Require Import String Ascii List Bool ZArith QArith Floats.
From stdpp Require Import gmap sets strings.
Import ListNotations.

Local Open Scope string_scope.
Local Open Scope list_scope.

(** ** Strings: Python's [in], [str.lower] and [' '.join] *)

Module Str.

(** [pat in s] on Python strings: [pat] occurs in [s] as a contiguous
    substring. The empty pattern occurs in every string. *)
Fixpoint contains (pat s : string) : bool :=
  String.prefix pat s ||
  match s with
  | EmptyString => false
  | String _ rest => contains pat rest
  end.

(** [str.lower] on one ASCII character: 'A'..'Z' are moved to 'a'..'z',
    every other character is kept. *)
Definition lower_ascii (c : ascii) : ascii :=
  let n := N_of_ascii c in
  if (65 <=? n)%N && (n <=? 90)%N then ascii_of_N (n + 32) else c.

Fixpoint lower (s : string) : string :=
  match s with
  | EmptyString => EmptyString
  | String c rest => String (lower_ascii c) (lower rest)
  end.

(** [sep.join(parts)] *)
Fixpoint join (sep : string) (parts : list string) : string :=
  match parts with
  | [] => ""
  | [p] => p
  | p :: rest => p ++ sep ++ join sep rest
  end.

End Str.

(** ** Exceptions and results *)

(** The exception classes the program distinguishes in its handlers.
    [ZombieProcess] is a subclass of [NoSuchProcess] in psutil and is
    covered by it; [OtherError] stands for any other subclass of
    [Exception] (an [OSError] of [subprocess.run], for instance). *)
Inductive Exn : Type :=
  | KeyboardInterrupt
  | CalledProcessError
  | NoSuchProcess
  | AccessDenied
  | OtherError.

Definition Exn_eqb (a b : Exn) : bool :=
  match a, b with
  | KeyboardInterrupt, KeyboardInterrupt
  | CalledProcessError, CalledProcessError
  | NoSuchProcess, NoSuchProcess
  | AccessDenied, AccessDenied
  | OtherError, OtherError => true
  | _, _ => false
  end.

(** A Python call either returns a value or raises. *)
Inductive Outcome (A : Type) : Type :=
  | Ret (a : A)
  | Raise (e : Exn).
Arguments Ret {A} a.
Arguments Raise {A} e.

(** ** Process classifier *)

(** What the program reads of a [psutil.Process]: its pid, and the
    results of [proc.name()] and [proc.cmdline()], each of which may
    raise (the process has gone, or may not be inspected). *)
Record Process : Type := mkProcess {
  pid : Z;
  name : Outcome string;
  cmdline : Outcome (list string)
}.

(** The configuration set in [__init__]. [grace_period] is compared
    with a float; the [int] 8 of the source compares as the float 8. *)
Record Config : Type := mkConfig {
  vllm_service : string;
  check_interval : Z;
  grace_period : float;
  gpu_intensive_processes : gset string
}.

Definition default_config : Config := {|
  vllm_service := "vllm.service";
  check_interval := 3;
  grace_period := 8;
  gpu_intensive_processes :=
    list_to_set
      ["rdb"; "python -m rdb"; "embedding"; "indexing"; "trainer"; "finetune"]
|}.

(** The local list [gpu_keywords] of [_is_process_gpu_intensive]. *)
Definition gpu_keywords : list string :=
  ["embed"; "index"; "build"; "train"; "finetune"].

(** The two tests of [_is_process_gpu_intensive] on the joined command
    line: the loop over the configured patterns (case-sensitive) and the
    [any] over the keywords (on the lower-cased command line). The loop
    over a Python set visits its elements in an unspecified order; it
    computes a disjunction, here over [elements]. *)
Definition matches_pattern (cfg : Config) (cmd : string) : bool :=
  existsb (fun pattern => Str.contains pattern cmd)
          (elements (gpu_intensive_processes cfg)).

Definition matches_keyword (cmd : string) : bool :=
  existsb (fun keyword => Str.contains keyword (Str.lower cmd)) gpu_keywords.

(** [_is_process_gpu_intensive]: [NoSuchProcess] and [AccessDenied] raised
    by [proc.cmdline()] are caught and give [False]; anything else
    propagates. *)
Definition _is_process_gpu_intensive (cfg : Config) (proc : Process)
  : Outcome bool :=
  match cmdline proc with
  | Ret args =>
      let cmd := Str.join " " args in
      if matches_pattern cfg cmd then Ret true
      else if matches_keyword cmd then Ret true
      else Ret false
  | Raise NoSuchProcess | Raise AccessDenied => Ret false
  | Raise e => Raise e
  end.

(** [_get_gpu_intensive_processes]: the processes of the snapshot that are
    classified GPU-intensive. The source collects them in a set of
    process objects; the loop only tests it for emptiness and logs the
    names. The list stands for that set: which processes it holds is
    what matters, its order is not the order the set is iterated in. *)
Fixpoint _get_gpu_intensive_processes (cfg : Config) (snapshot : list Process)
  : Outcome (list Process) :=
  match snapshot with
  | [] => Ret []
  | proc :: rest =>
      match _is_process_gpu_intensive cfg proc with
      | Ret b =>
          match _get_gpu_intensive_processes cfg rest with
          | Ret found => Ret (if b then proc :: found else found)
          | Raise e => Raise e
          end
      | Raise NoSuchProcess | Raise AccessDenied =>
          _get_gpu_intensive_processes cfg rest
      | Raise e => Raise e
      end
  end.

(** [proc.cmdline()] returns or raises one of the two psutil errors
    the classifier catches. *)
Definition inspectable (proc : Process) : bool :=
  match cmdline proc with
  | Ret _ | Raise NoSuchProcess | Raise AccessDenied => true
  | Raise _ => false
  end.

(** The verdict on one process, with the swallowed errors counted as
    "not GPU-intensive". *)
Definition verdict (cfg : Config) (proc : Process) : bool :=
  match _is_process_gpu_intensive cfg proc with
  | Ret b => b
  | Raise _ => false
  end.

(** ** Coordinator state, events and the execution monad *)

(** The mutable attributes of the coordinator object. Timestamps are the
    values of [time.time()], binary64 floats. *)
Record State : Type := mkState {
  vllm_was_running : bool;
  gpu_process_start_time : option float;
  running : bool
}.

(** The state [__init__] leaves. *)
Definition init_state : State := {|
  vllm_was_running := false;
  gpu_process_start_time := None;
  running := true
|}.

Definition set_vllm_was_running (b : bool) (st : State) : State :=
  {| vllm_was_running := b;
     gpu_process_start_time := gpu_process_start_time st;
     running := running st |}.

Definition set_gpu_process_start_time (t : option float) (st : State)
  : State :=
  {| vllm_was_running := vllm_was_running st;
     gpu_process_start_time := t;
     running := running st |}.

Definition set_running (b : bool) (st : State) : State :=
  {| vllm_was_running := vllm_was_running st;
     gpu_process_start_time := gpu_process_start_time st;
     running := b |}.

(** How a [subprocess.run] call ends: the command ran and exited with a
    return code, or the call itself raised. *)
Inductive CmdResult : Type :=
  | Exited (returncode : Z)
  | NotRun (e : Exn).

Inductive Level : Type := INFO | ERROR.

Inductive LogMsg : Type :=
  | MsgStarted
  | MsgMonitoring (patterns : list string)
  | MsgManaging (service : string)
  | MsgDetected (proc_names : list string)
  | MsgFinished
  | MsgStopping (service : string)
  | MsgFailedStop (service : string)
  | MsgRestarting (service : string)
  | MsgFailedStart (service : string)
  | MsgSignal (signum : Z)
  | MsgInterrupted
  | MsgCleanup
  | MsgStopped.

(** What the coordinator does to the outside world, in order. The three
    [systemctl] events carry how the command ended. *)
Inductive Event : Type :=
  | Log (level : Level) (msg : LogMsg)
  | IsActiveQuery (r : CmdResult)
  | StopCmd (r : CmdResult)
  | StartCmd (r : CmdResult)
  | Sleep (secs : Z).

(** A method of the coordinator: it reads and updates the state, appends
    to the trace, and returns or raises. *)
Definition M (A : Type) : Type := State -> Outcome A * State * list Event.

Definition ret {A} (a : A) : M A := fun st => (Ret a, st, []).

Definition raise {A} (e : Exn) : M A := fun st => (Raise e, st, []).

Definition bind {A B} (m : M A) (k : A -> M B) : M B := fun st =>
  match m st with
  | (Ret a, st1, tr1) =>
      match k a st1 with
      | (o, st2, tr2) => (o, st2, tr1 ++ tr2)
      end
  | (Raise e, st1, tr1) => (Raise e, st1, tr1)
  end.

Notation "x <- m ;; k" := (bind m (fun x => k))
  (at level 100, m at level 99, right associativity).
Notation "m ;;; k" := (bind m (fun _ => k))
  (at level 100, right associativity).

Definition get : M State := fun st => (Ret st, st, []).
Definition modify (f : State -> State) : M unit := fun st => (Ret tt, f st, []).
Definition emit (ev : Event) : M unit := fun st => (Ret tt, st, [ev]).
Definition lift {A} (o : Outcome A) : M A := fun st => (o, st, []).

(** [try: body  except exn: handler] *)
Definition try_except {A} (body : M A) (exn : Exn) (handler : M A) : M A :=
  fun st =>
    match body st with
    | (Raise e, st1, tr1) =>
        if Exn_eqb e exn then
          match handler st1 with
          | (o, st2, tr2) => (o, st2, tr1 ++ tr2)
          end
        else (Raise e, st1, tr1)
    | r => r
    end.

(** [try: body  finally: fin]: [fin] runs however [body] ends; the
    outcome is that of [body] unless [fin] raises. *)
Definition try_finally {A} (body : M A) (fin : M unit) : M A :=
  fun st =>
    match body st with
    | (o, st1, tr1) =>
        match fin st1 with
        | (Ret _, st2, tr2) => (o, st2, tr1 ++ tr2)
        | (Raise e, st2, tr2) => (Raise e, st2, tr1 ++ tr2)
        end
    end.

Definition outcome_of {A} (r : Outcome A * State * list Event) : Outcome A :=
  fst (fst r).
Definition state_of {A} (r : Outcome A * State * list Event) : State :=
  snd (fst r).
Definition trace_of {A} (r : Outcome A * State * list Event) : list Event :=
  snd r.

(** ** Service controller *)

(** [subprocess.run(cmd, check=True)]: a non-zero return code raises
    [CalledProcessError]. *)
Definition run_checked (r : CmdResult) : Outcome unit :=
  match r with
  | Exited rc => if (rc =? 0)%Z then Ret tt else Raise CalledProcessError
  | NotRun e => Raise e
  end.

(** [_is_vllm_running]: [systemctl is-active] returned 0. [except
    Exception] turns every failure of the call into [False]; a
    [KeyboardInterrupt] is not an [Exception] and propagates. *)
Definition _is_vllm_running (r : CmdResult) : M bool :=
  emit (IsActiveQuery r) ;;;
  match r with
  | Exited rc => ret (rc =? 0)%Z
  | NotRun KeyboardInterrupt => raise KeyboardInterrupt
  | NotRun _ => ret false
  end.

(** [_stop_vllm]. [active] and [stop] are how the [is-active] query and
    the [sudo systemctl stop] command of this call end. *)
Definition _stop_vllm (cfg : Config) (active stop : CmdResult) : M unit :=
  is_active <- _is_vllm_running active ;;
  if is_active then
    emit (Log INFO (MsgStopping (vllm_service cfg))) ;;;
    try_except
      (emit (StopCmd stop) ;;;
       lift (run_checked stop) ;;;
       modify (set_vllm_was_running true) ;;;
       emit (Sleep 3))
      CalledProcessError
      (emit (Log ERROR (MsgFailedStop (vllm_service cfg))))
  else ret tt.

(** [_start_vllm]. [start] is how [sudo systemctl start] ends. *)
Definition _start_vllm (cfg : Config) (start : CmdResult) : M unit :=
  st <- get ;;
  if vllm_was_running st then
    emit (Log INFO (MsgRestarting (vllm_service cfg))) ;;;
    try_except
      (emit (StartCmd start) ;;;
       lift (run_checked start) ;;;
       modify (set_vllm_was_running false))
      CalledProcessError
      (emit (Log ERROR (MsgFailedStart (vllm_service cfg))))
  else ret tt.

(** [_handle_signal] *)
Definition _handle_signal (signum : Z) : M unit :=
  emit (Log INFO (MsgSignal signum)) ;;;
  modify (set_running false).

(** ** The arbitration loop *)

(** How the [time.sleep(self.check_interval)] that ends a tick goes: it
    returns, or a SIGTERM/SIGINT is delivered and [_handle_signal] runs,
    or an exception is raised asynchronously. *)
Inductive SleepEnd : Type :=
  | Quiet
  | Signalled (signum : Z)
  | Interrupted (e : Exn).

(** What the outside world answers during one iteration of the [while]
    loop of [run], one field per place where the loop body asks. *)
Record TickInput : Type := mkTick {
  snapshot : list Process;     (* psutil.process_iter(...) *)
  now_first : float;           (* time.time() when contention is first seen *)
  now_check : float;           (* time.time() of the grace-period check *)
  active_run : CmdResult;      (* is-active, asked by run *)
  active_stop : CmdResult;     (* is-active, asked by _stop_vllm *)
  stop : CmdResult;            (* sudo systemctl stop *)
  start : CmdResult;           (* sudo systemctl start *)
  during_sleep : SleepEnd
}.

(** [[f(x) for x in xs]] where [f] may raise. *)
Fixpoint map_outcome {A B} (f : A -> Outcome B) (xs : list A)
  : Outcome (list B) :=
  match xs with
  | [] => Ret []
  | x :: rest =>
      match f x with
      | Ret y =>
          match map_outcome f rest with
          | Ret ys => Ret (y :: ys)
          | Raise e => Raise e
          end
      | Raise e => Raise e
      end
  end.

(** The branch of the loop body taken when [gpu_processes] is not empty. *)
Definition on_contention (cfg : Config) (w : TickInput)
    (gpu_processes : list Process) : M unit :=
  st <- get ;;
  match gpu_process_start_time st with
  | None =>
      modify (set_gpu_process_start_time (Some (now_first w))) ;;;
      proc_names <- lift (map_outcome name gpu_processes) ;;
      emit (Log INFO (MsgDetected proc_names))
  | Some _ => ret tt
  end ;;;
  st <- get ;;
  match gpu_process_start_time st with
  | Some started =>
      let elapsed := PrimFloat.sub (now_check w) started in
      if PrimFloat.leb (grace_period cfg) elapsed then
        is_active <- _is_vllm_running (active_run w) ;;
        if is_active then _stop_vllm cfg (active_stop w) (stop w) else ret tt
      else ret tt
  | None => raise OtherError     (* TypeError of the subtraction *)
  end.

(** The branch taken when [gpu_processes] is empty. *)
Definition on_clear (cfg : Config) (w : TickInput) : M unit :=
  st <- get ;;
  match gpu_process_start_time st with
  | Some _ =>
      emit (Log INFO MsgFinished) ;;;
      modify (set_gpu_process_start_time None) ;;;
      st <- get ;;
      if vllm_was_running st then
        emit (Sleep 2) ;;;
        _start_vllm cfg (start w)
      else ret tt
  | None => ret tt
  end.

(** [time.sleep(self.check_interval)], the last statement of the loop
    body, with what happens while the coordinator sleeps. *)
Definition sleep_interval (cfg : Config) (w : TickInput) : M unit :=
  emit (Sleep (check_interval cfg)) ;;;
  match during_sleep w with
  | Quiet => ret tt
  | Signalled signum => _handle_signal signum
  | Interrupted e => raise e
  end.

(** One iteration of the [while] loop. *)
Definition tick (cfg : Config) (w : TickInput) : M unit :=
  gpu_processes <- lift (_get_gpu_intensive_processes cfg (snapshot w)) ;;
  match gpu_processes with
  | _ :: _ => on_contention cfg w gpu_processes
  | [] => on_clear cfg w
  end ;;;
  sleep_interval cfg w.

(** Whether the [while] loop has been left. *)
Inductive LoopStatus : Type :=
  | LoopExited
  | LoopPending.

(** [while self.running: ...] over the answers [ticks] of the outside
    world, one per iteration. When they are used up with [running] still
    true, the loop has not been left: [LoopPending]. *)
Fixpoint run_loop (cfg : Config) (ticks : list TickInput) (st : State)
  : Outcome LoopStatus * State * list Event :=
  if running st then
    match ticks with
    | [] => (Ret LoopPending, st, [])
    | w :: rest =>
        match tick cfg w st with
        | (Ret _, st1, tr1) =>
            match run_loop cfg rest st1 with
            | (o, st2, tr2) => (o, st2, tr1 ++ tr2)
            end
        | (Raise e, st1, tr1) => (Raise e, st1, tr1)
        end
    end
  else (Ret LoopExited, st, []).

(** The [finally] block of [run]. *)
Definition cleanup (cfg : Config) (start : CmdResult) : M unit :=
  st <- get ;;
  (if vllm_was_running st then
     emit (Log INFO MsgCleanup) ;;;
     _start_vllm cfg start
   else ret tt) ;;;
  emit (Log INFO MsgStopped).

(** The three log records at the head of [run]. *)
Definition banner (cfg : Config) : M unit :=
  emit (Log INFO MsgStarted) ;;;
  emit (Log INFO (MsgMonitoring (elements (gpu_intensive_processes cfg)))) ;;;
  emit (Log INFO (MsgManaging (vllm_service cfg))).

(** [run]: the banner, then
    [try: while ...  except KeyboardInterrupt: ...  finally: ...].
    [cleanup_start] is how the [systemctl start] of the [finally] block
    ends. While the loop is pending the [finally] block has not been
    reached. *)
Definition run (cfg : Config) (ticks : list TickInput)
    (cleanup_start : CmdResult) : M LoopStatus :=
  banner cfg ;;;
  fun st =>
    match run_loop cfg ticks st with
    | (Ret LoopPending, st1, tr1) => (Ret LoopPending, st1, tr1)
    | loop_end =>
        try_finally
          (try_except (fun _ => loop_end)
             KeyboardInterrupt
             (emit (Log INFO MsgInterrupted) ;;; ret LoopExited))
          (cleanup cfg cleanup_start)
          st
    end.

(** ** Sample processes and answers *)

Definition rdb_build : Process :=
  mkProcess 4242 (Ret "python") (Ret ["python"; "-m"; "rdb"; "--build"]).

Definition sshd : Process :=
  mkProcess 811 (Ret "sshd") (Ret ["sshd: user@pts/0"]).

(** The same program name in upper case, and a keyword in upper case. *)
Definition RDB : Process := mkProcess 77 (Ret "RDB") (Ret ["RDB"]).

Definition TRAIN : Process := mkProcess 78 (Ret "TRAIN") (Ret ["TRAIN"]).

(** A process that matches but is gone when its name is read for the
    log record. *)
Definition vanished : Process :=
  mkProcess 5150 (Raise NoSuchProcess)
            (Ret ["python"; "-m"; "rdb"; "--build"]).

(** A tick during which the service manager reports the service active
    and every command succeeds. *)
Definition calm (procs : list Process) (now : float) : TickInput := {|
  snapshot := procs;
  now_first := now;
  now_check := now;
  active_run := Exited 0;
  active_stop := Exited 0;
  stop := Exited 0;
  start := Exited 0;
  during_sleep := Quiet
|}.

Definition with_sleep (s : SleepEnd) (w : TickInput) : TickInput := {|
  snapshot := snapshot w;
  now_first := now_first w;
  now_check := now_check w;
  active_run := active_run w;
  active_stop := active_stop w;
  stop := stop w;
  start := start w;
  during_sleep := s
|}.

Definition with_start (r : CmdResult) (w : TickInput) : TickInput := {|
  snapshot := snapshot w;
  now_first := now_first w;
  now_check := now_check w;
  active_run := active_run w;
  active_stop := active_stop w;
  stop := stop w;
  start := r;
  during_sleep := during_sleep w
|}.

Definition with_stop (r : CmdResult) (w : TickInput) : TickInput := {|
  snapshot := snapshot w;
  now_first := now_first w;
  now_check := now_check w;
  active_run := active_run w;
  active_stop := active_stop w;
  stop := r;
  start := start w;
  during_sleep := during_sleep w
|}.

Definition with_active (r : CmdResult) (w : TickInput) : TickInput := {|
  snapshot := snapshot w;
  now_first := now_first w;
  now_check := now_check w;
  active_run := r;
  active_stop := r;
  stop := stop w;
  start := start w;
  during_sleep := during_sleep w
|}.

(** ** Observing an execution *)

(** The iterations [run_loop] executes: for each one the state it starts
    from, the answers it gets and the events it leaves. An iteration that
    raises is the last one. *)
Fixpoint iterations (cfg : Config) (ticks : list TickInput) (st : State)
  : list (State * TickInput * list Event) :=
  if running st then
    match ticks with
    | [] => []
    | w :: rest =>
        match tick cfg w st with
        | (Ret _, st1, tr1) => (st, w, tr1) :: iterations cfg rest st1
        | (Raise _, _, tr1) => [(st, w, tr1)]
        end
    end
  else [].

(** The command exited with status 0. *)
Definition succeeded (r : CmdResult) : bool :=
  match r with
  | Exited rc => (rc =? 0)%Z
  | NotRun _ => false
  end.

(** Whether a resume is owed after the events [tr], when [owed] tells
    whether one was owed before: a successful stop makes one owed, a
    successful start pays it. *)
Fixpoint owed_after (owed : bool) (tr : list Event) : bool :=
  match tr with
  | [] => owed
  | StopCmd r :: rest => owed_after (if succeeded r then true else owed) rest
  | StartCmd r :: rest => owed_after (if succeeded r then false else owed) rest
  | _ :: rest => owed_after owed rest
  end.

(** No stop command is issued in [tr] at a point where a resume is owed:
    after a successful stop, no stop before the next successful start. *)
Fixpoint no_double_stop (owed : bool) (tr : list Event) : bool :=
  match tr with
  | [] => true
  | StopCmd r :: rest =>
      negb owed && no_double_stop (if succeeded r then true else owed) rest
  | StartCmd r :: rest =>
      no_double_stop (if succeeded r then false else owed) rest
  | _ :: rest => no_double_stop owed rest
  end.

(** The service manager never reports the service active to [run] while
    a resume is owed, in any iteration of the execution: nobody else
    starts the service the coordinator has stopped. *)
Definition sole_controller (cfg : Config) (ticks : list TickInput)
    (st : State) : bool :=
  forallb
    (fun it : State * TickInput * list Event =>
       let '(s, w, _) := it in
       implb (vllm_was_running s) (negb (succeeded (active_run w))))
    (iterations cfg ticks st).

Definition is_stop (ev : Event) : bool :=
  match ev with
  | StopCmd _ => true
  | _ => false
  end.

Definition is_start (ev : Event) : bool :=
  match ev with
  | StartCmd _ => true
  | _ => false
  end.

(** The classifier finds at least one process in the snapshot of [w]. *)
Definition contended (cfg : Config) (w : TickInput) : bool :=
  match _get_gpu_intensive_processes cfg (snapshot w) with
  | Ret (_ :: _) => true
  | _ => false
  end.

(** The classifier finds none. *)
Definition cleared (cfg : Config) (w : TickInput) : bool :=
  match _get_gpu_intensive_processes cfg (snapshot w) with
  | Ret [] => true
  | _ => false
  end.

(** The stop and start commands of a trace, in order. *)
Definition commands (tr : list Event) : list Event :=
  List.filter (fun ev => is_stop ev || is_start ev) tr.

(** The contention start time the grace-period check of an iteration
    uses: the recorded one, or the clock reading taken on first sight. *)
Definition contention_start (w : TickInput) (st : State) : float :=
  match gpu_process_start_time st with
  | Some started => started
  | None => now_first w
  end.

(** The grace-period test of [run]: [elapsed >= self.grace_period], on
    the float difference of the two clock readings. *)
Definition grace_elapsed (cfg : Config) (w : TickInput) (st : State) : bool :=
  PrimFloat.leb (grace_period cfg)
    (PrimFloat.sub (now_check w) (contention_start w st)).

(** On first sight of contention the names of the processes are read
    for the log record; this tells whether that goes through. *)
Definition names_logged (procs : list Process) (st : State) : bool :=
  match gpu_process_start_time st, map_outcome name procs with
  | None, Raise _ => false
  | _, _ => true
  end.

(** A resume is due when contention clears: the timer is set and the
    flag is up. *)
Definition resume_due (st : State) : bool :=
  match gpu_process_start_time st with
  | Some _ => vllm_was_running st
  | None => false
  end.

(** The stop or start command an iteration issues, read off the state it
    starts from and the answers it gets. *)
Definition tick_command (cfg : Config) (w : TickInput) (st : State)
  : list Event :=
  match _get_gpu_intensive_processes cfg (snapshot w) with
  | Ret (p :: ps) =>
      if names_logged (p :: ps) st && grace_elapsed cfg w st
         && succeeded (active_run w) && succeeded (active_stop w)
      then [StopCmd (stop w)] else []
  | Ret [] => if resume_due st then [StartCmd (start w)] else []
  | Raise _ => []
  end.

(** The contention timer an iteration leaves. *)
Definition tick_timer (cfg : Config) (w : TickInput) (st : State)
  : option float :=
  match _get_gpu_intensive_processes cfg (snapshot w) with
  | Ret (_ :: _) => Some (contention_start w st)
  | Ret [] => None
  | Raise _ => gpu_process_start_time st
  end.

(** ** Further sample processes *)

(** A kernel thread: [proc.cmdline()] returns the empty list. *)
Definition kthreadd : Process := mkProcess 2 (Ret "kthreadd") (Ret []).

(** A process of another user: [proc.cmdline()] raises [AccessDenied]. *)
Definition denied : Process :=
  mkProcess 1 (Ret "systemd") (Raise AccessDenied).

(** A process whose inspection fails with an error the classifier does
    not catch. *)
Definition broken : Process := mkProcess 13 (Ret "odd") (Raise OtherError).

(** [proc.cmdline()] raises one of the two errors the classifier
    swallows. *)
Definition swallowed (proc : Process) : bool :=
  match cmdline proc with
  | Raise NoSuchProcess | Raise AccessDenied => true
  | _ => false
  end.

(** No start command is issued in [tr] at a point where no resume is
    owed: every start comes after a successful stop, with no successful
    start in between. *)
Fixpoint starts_owed (owed : bool) (tr : list Event) : bool :=
  match tr with
  | [] => true
  | StopCmd r :: rest => starts_owed (if succeeded r then true else owed) rest
  | StartCmd r :: rest =>
      owed && starts_owed (if succeeded r then false else owed) rest
  | _ :: rest => starts_owed owed rest
  end.

(** ** The entry point *)

(** The text [main] prints for [--help], with the newline [print] adds. *)
Definition usage : string :=
"GPU Coordinator - Automatic vLLM service management

Monitors for GPU-intensive processes and automatically pauses vLLM service
to prevent GPU memory conflicts. Restarts vLLM when processes complete.

To customize settings, edit the defaults at the top of this script.

".

(** What a call of [main] comes to: the usage text is printed, or a
    coordinator is built and run. *)
Inductive MainResult : Type :=
  | PrintedUsage (text : string)
  | RanCoordinator (r : Outcome LoopStatus * State * list Event).

(** [main]. [argv] is [sys.argv]; [ticks] and [cleanup_start] are the
    answers of the outside world to the coordinator, if it runs. *)
Definition main (argv : list string) (ticks : list TickInput)
    (cleanup_start : CmdResult) : MainResult :=
  match argv with
  | _ :: arg1 :: _ =>
      if existsb (String.eqb arg1) ["--help"; "-h"]
      then PrintedUsage usage
      else RanCoordinator (run default_config ticks cleanup_start init_state)
  | _ => RanCoordinator (run default_config ticks cleanup_start init_state)
  end.

(** ** Clock readings as exact numbers *)



(** * Properties of the classifier *)

Example classify_rdb_build :
  _get_gpu_intensive_processes default_config
    [mkProcess 7 (Ret "python") (Ret ["python"; "-m"; "rdb"; "--build"])]
  = Ret [mkProcess 7 (Ret "python") (Ret ["python"; "-m"; "rdb"; "--build"])].
Proof. vm_compute. reflexivity. Qed.

Example classify_sshd :
  _get_gpu_intensive_processes default_config
    [mkProcess 9 (Ret "sshd") (Ret ["sshd: user@pts/0"])]
  = Ret [].
Proof. vm_compute. reflexivity. Qed.

(** The scenario of the grace period: contention from t=0, nothing at
    t=5, one stop at t=9, resume when the job is gone, then SIGTERM. *)
Example grace_period_scenario :
  run default_config
    [calm [rdb_build] 0; calm [rdb_build] 5; calm [rdb_build] 9;
     calm [sshd] 20; with_sleep (Signalled 15) (calm [sshd] 23)]
    (Exited 0) init_state
  = (Ret LoopExited,
     {| vllm_was_running := false; gpu_process_start_time := None;
        running := false |},
     [Log INFO MsgStarted;
      Log INFO (MsgMonitoring (elements (gpu_intensive_processes default_config)));
      Log INFO (MsgManaging "vllm.service");
      Log INFO (MsgDetected ["python"]); Sleep 3;
      Sleep 3;
      IsActiveQuery (Exited 0); IsActiveQuery (Exited 0);
      Log INFO (MsgStopping "vllm.service"); StopCmd (Exited 0); Sleep 3;
      Sleep 3;
      Log INFO MsgFinished; Sleep 2;
      Log INFO (MsgRestarting "vllm.service"); StartCmd (Exited 0); Sleep 3;
      Sleep 3; Log INFO (MsgSignal 15);
      Log INFO MsgStopped]).
Proof. vm_compute. reflexivity. Qed.

Section Classifier.

Variable cfg : Config.

Lemma inspectable_returns proc :
  inspectable proc = true ->
  _is_process_gpu_intensive cfg proc = Ret (verdict cfg proc).
Proof.
  unfold inspectable, verdict, _is_process_gpu_intensive.
  destruct (cmdline proc) as [args | []]; try discriminate; intros _;
    try reflexivity.
  destruct (matches_pattern cfg _); [reflexivity |].
  destruct (matches_keyword _); reflexivity.
Qed.

(** On a snapshot of inspectable processes the classifier is a filter:
    it never fails as a whole. *)
Lemma classify_filter snap :
  forallb inspectable snap = true ->
  _get_gpu_intensive_processes cfg snap = Ret (List.filter (verdict cfg) snap).
Proof.
  induction snap as [| proc rest IH]; simpl; [reflexivity |].
  intros H. apply andb_prop in H. destruct H as [Hp Hrest].
  rewrite (inspectable_returns _ Hp), (IH Hrest).
  destruct (verdict cfg proc); reflexivity.
Qed.

Lemma pattern_hit pattern cmd :
  pattern ∈ gpu_intensive_processes cfg ->
  Str.contains pattern cmd = true ->
  matches_pattern cfg cmd = true.
Proof.
  intros Hin Hc. unfold matches_pattern. apply existsb_exists.
  exists pattern. split; [| exact Hc].
  apply list_elem_of_In, elem_of_elements, Hin.
Qed.

Lemma pattern_miss cmd :
  (forall pattern, pattern ∈ gpu_intensive_processes cfg ->
                   Str.contains pattern cmd = false) ->
  matches_pattern cfg cmd = false.
Proof.
  intros H. unfold matches_pattern.
  destruct (existsb _ _) eqn:E; [| reflexivity].
  apply existsb_exists in E. destruct E as (p & Hin & Hc).
  apply list_elem_of_In, elem_of_elements in Hin.
  rewrite (H p Hin) in Hc. discriminate.
Qed.

Lemma keyword_miss cmd :
  (forall keyword, In keyword gpu_keywords ->
                   Str.contains keyword (Str.lower cmd) = false) ->
  matches_keyword cmd = false.
Proof.
  intros H. unfold matches_keyword.
  destruct (existsb _ _) eqn:E; [| reflexivity].
  apply existsb_exists in E. destruct E as (k & Hin & Hc).
  rewrite (H k Hin) in Hc. discriminate.
Qed.

Lemma keyword_hit keyword cmd :
  In keyword gpu_keywords ->
  Str.contains keyword (Str.lower cmd) = true ->
  matches_keyword cmd = true.
Proof.
  intros Hin Hc. unfold matches_keyword. apply existsb_exists.
  exists keyword. split; assumption.
Qed.

End Classifier.

(** Membership in the configured pattern set, read off the list it is
    built from. *)
Lemma configured_patterns (pattern : string) :
  pattern ∈ gpu_intensive_processes default_config <->
  In pattern
    ["rdb"; "python -m rdb"; "embedding"; "indexing"; "trainer"; "finetune"].
Proof.
  unfold default_config, gpu_intensive_processes.
  rewrite elem_of_list_to_set. apply list_elem_of_In.
Qed.

Lemma rdb_configured : "rdb" ∈ gpu_intensive_processes default_config.
Proof. apply configured_patterns. left. reflexivity. Qed.

(** C5. A process whose command line is "python -m rdb --build" is
    classified GPU-intensive under every configuration whose literal
    patterns include "rdb": the classifier returns, and its result holds
    that process, whatever else the snapshot holds. A snapshot made of
    one process whose command line is "sshd: user@pts/0" is classified
    to the empty result under the configured patterns. *)
Theorem classifier_scenario (cfg : Config) (snap : list Process)
    (proc : Process) (args : list string) :
  "rdb" ∈ gpu_intensive_processes cfg ->
  forallb inspectable snap = true ->
  In proc snap ->
  cmdline proc = Ret args ->
  Str.join " " args = "python -m rdb --build" ->
  (exists found,
     _get_gpu_intensive_processes cfg snap = Ret found /\ In proc found) /\
  (forall other pid' name',
     Str.join " " other = "sshd: user@pts/0" ->
     _get_gpu_intensive_processes default_config
       [mkProcess pid' name' (Ret other)] = Ret []).
Proof.
  intros Hrdb Hsnap Hin Hargs Hcmd. split.
  - exists (List.filter (verdict cfg) snap). split.
    + apply classify_filter, Hsnap.
    + apply filter_In. split; [exact Hin |].
      unfold verdict, _is_process_gpu_intensive. rewrite Hargs, Hcmd.
      rewrite (pattern_hit cfg "rdb"); [reflexivity | exact Hrdb | reflexivity].
  - intros other pid' name' Hother.
    cbn [_get_gpu_intensive_processes _is_process_gpu_intensive cmdline].
    rewrite Hother. vm_compute. reflexivity.
Qed.

Lemma classifier_scenario_witness :
  (exists found,
     _get_gpu_intensive_processes default_config [sshd; rdb_build] = Ret found
     /\ In rdb_build found) /\
  (forall other pid' name',
     Str.join " " other = "sshd: user@pts/0" ->
     _get_gpu_intensive_processes default_config
       [mkProcess pid' name' (Ret other)] = Ret []).
Proof.
  apply (classifier_scenario default_config [sshd; rdb_build] rdb_build
           ["python"; "-m"; "rdb"; "--build"]).
  - exact rdb_configured.
  - reflexivity.
  - simpl. right. left. reflexivity.
  - reflexivity.
  - reflexivity.
Defined.

(** C10. A process whose command line holds a configured literal pattern
    only in a differing letter case (the pattern occurs once both are
    lower-cased, no configured pattern occurs as written) and none of the
    keywords once lower-cased is excluded by the classifier: the verdict
    on it is [False] and it is not in the result for any snapshot. The
    keyword test, unlike the pattern test, does not see letter case: two
    command lines that agree once lower-cased get the same keyword
    verdict. *)
Theorem case_asymmetry (cfg : Config) (snap : list Process)
    (proc : Process) (args : list string) :
  cmdline proc = Ret args ->
  (exists pattern,
     pattern ∈ gpu_intensive_processes cfg /\
     Str.contains (Str.lower pattern) (Str.lower (Str.join " " args)) = true) ->
  (forall pattern,
     pattern ∈ gpu_intensive_processes cfg ->
     Str.contains pattern (Str.join " " args) = false) ->
  (forall keyword,
     In keyword gpu_keywords ->
     Str.contains keyword (Str.lower (Str.join " " args)) = false) ->
  forallb inspectable snap = true ->
  _is_process_gpu_intensive cfg proc = Ret false /\
  (exists found,
     _get_gpu_intensive_processes cfg snap = Ret found /\ ~ In proc found) /\
  (forall cmd1 cmd2,
     Str.lower cmd1 = Str.lower cmd2 ->
     matches_keyword cmd1 = matches_keyword cmd2).
Proof.
  intros Hargs _ Hpat Hkey Hsnap.
  assert (Hv : _is_process_gpu_intensive cfg proc = Ret false).
  { unfold _is_process_gpu_intensive. rewrite Hargs.
    rewrite (pattern_miss cfg _ Hpat), (keyword_miss _ Hkey). reflexivity. }
  split; [exact Hv | split].
  - exists (List.filter (verdict cfg) snap). split.
    + apply classify_filter, Hsnap.
    + intros Hin. apply filter_In in Hin. destruct Hin as [_ Hin].
      unfold verdict in Hin. rewrite Hv in Hin. discriminate.
  - intros cmd1 cmd2 Hlow. unfold matches_keyword. rewrite Hlow. reflexivity.
Qed.

Lemma case_asymmetry_witness :
  _is_process_gpu_intensive default_config RDB = Ret false /\
  (exists found,
     _get_gpu_intensive_processes default_config [RDB; rdb_build] = Ret found
     /\ ~ In RDB found) /\
  (forall cmd1 cmd2,
     Str.lower cmd1 = Str.lower cmd2 ->
     matches_keyword cmd1 = matches_keyword cmd2).
Proof.
  apply (case_asymmetry default_config [RDB; rdb_build] RDB ["RDB"]).
  - reflexivity.
  - exists "rdb". split; [exact rdb_configured | reflexivity].
  - intros pattern Hin. apply configured_patterns in Hin. simpl in Hin.
    repeat (destruct Hin as [<- | Hin]; [reflexivity |]). destruct Hin.
  - intros keyword Hin. simpl in Hin.
    repeat (destruct Hin as [<- | Hin]; [reflexivity |]). destruct Hin.
  - reflexivity.
Defined.

(** The same letters in upper case do match when they spell a keyword. *)
Example upper_case_keyword_matches :
  _is_process_gpu_intensive default_config TRAIN = Ret true /\
  _is_process_gpu_intensive default_config RDB = Ret false /\
  _is_process_gpu_intensive default_config
    (mkProcess 79 (Ret "rdb") (Ret ["rdb"])) = Ret true.
Proof. vm_compute. repeat split. Qed.

(** * Properties of the service controller *)

Ltac unfold_m :=
  unfold _stop_vllm, _start_vllm, _is_vllm_running, _handle_signal,
         try_except, try_finally, bind, ret, raise, get, modify, emit, lift,
         outcome_of, state_of, trace_of in *.

Ltac unfold_monad :=
  unfold try_except, try_finally, bind, ret, raise, get, modify, emit, lift,
         outcome_of, state_of, trace_of in *.

Ltac break_match :=
  match goal with
  | |- context [match ?x with _ => _ end] => destruct x eqn:?
  | H : context [match ?x with _ => _ end] |- _ => destruct x eqn:?
  end.

Section Controller.

Variable cfg : Config.

(** The status query changes nothing and leaves one event. *)
Lemma is_vllm_running_frame r st :
  state_of (_is_vllm_running r st) = st /\
  trace_of (_is_vllm_running r st) = [IsActiveQuery r].
Proof.
  unfold_m. destruct r as [rc | []]; simpl; split; reflexivity.
Qed.

(** What [_start_vllm] does when a resume is owed. *)
Lemma start_vllm_owed start st :
  vllm_was_running st = true ->
  _start_vllm cfg start st =
    match run_checked start with
    | Ret _ =>
        (Ret tt, set_vllm_was_running false st,
         [Log INFO (MsgRestarting (vllm_service cfg)); StartCmd start])
    | Raise CalledProcessError =>
        (Ret tt, st,
         [Log INFO (MsgRestarting (vllm_service cfg)); StartCmd start;
          Log ERROR (MsgFailedStart (vllm_service cfg))])
    | Raise e =>
        (Raise e, st,
         [Log INFO (MsgRestarting (vllm_service cfg)); StartCmd start])
    end.
Proof.
  intros Hflag. unfold_m. rewrite Hflag.
  destruct (run_checked start) as [[] | []]; reflexivity.
Qed.

(** ... and when none is owed. *)
Lemma start_vllm_not_owed start st :
  vllm_was_running st = false ->
  _start_vllm cfg start st = (Ret tt, st, []).
Proof. intros Hflag. unfold_m. rewrite Hflag. reflexivity. Qed.

(** What [_stop_vllm] does when the service is reported active. *)
Lemma stop_vllm_active stop st :
  _stop_vllm cfg (Exited 0) stop st =
    match run_checked stop with
    | Ret _ =>
        (Ret tt, set_vllm_was_running true st,
         [IsActiveQuery (Exited 0);
          Log INFO (MsgStopping (vllm_service cfg)); StopCmd stop; Sleep 3])
    | Raise CalledProcessError =>
        (Ret tt, st,
         [IsActiveQuery (Exited 0);
          Log INFO (MsgStopping (vllm_service cfg)); StopCmd stop;
          Log ERROR (MsgFailedStop (vllm_service cfg))])
    | Raise e =>
        (Raise e, st,
         [IsActiveQuery (Exited 0);
          Log INFO (MsgStopping (vllm_service cfg)); StopCmd stop])
    end.
Proof.
  unfold_m. simpl.
  destruct (run_checked stop) as [[] | []]; reflexivity.
Qed.

(** [_stop_vllm] touches neither the contention timer nor [running],
    and can only raise the flag. *)
Lemma stop_vllm_frame active stop st :
  let st' := state_of (_stop_vllm cfg active stop st) in
  gpu_process_start_time st' = gpu_process_start_time st /\
  running st' = running st /\
  (vllm_was_running st = true -> vllm_was_running st' = true).
Proof.
  unfold_m.
  destruct active as [rc | []]; simpl;
    try destruct (rc =? 0)%Z; simpl;
    try destruct (run_checked stop) as [[] | []]; simpl; auto.
Qed.

Lemma start_vllm_frame start st :
  let st' := state_of (_start_vllm cfg start st) in
  gpu_process_start_time st' = gpu_process_start_time st /\
  running st' = running st.
Proof.
  unfold_m. destruct (vllm_was_running st); simpl;
    try destruct (run_checked start) as [[] | []]; simpl; auto.
Qed.

End Controller.

(** C7, as the code has it. [_start_vllm] issues the privileged start
    command exactly when [vllm_was_running] is true: called with the flag
    false it does nothing at all; called with the flag true it issues the
    command once. *)
Theorem start_guarded_by_flag (cfg : Config) (start : CmdResult) (st : State) :
  (In (StartCmd start) (trace_of (_start_vllm cfg start st)) <->
   vllm_was_running st = true) /\
  (vllm_was_running st = false ->
   _start_vllm cfg start st = (Ret tt, st, [])).
Proof.
  split; [| apply start_vllm_not_owed].
  destruct (vllm_was_running st) eqn:Hflag.
  - rewrite (start_vllm_owed cfg start st Hflag).
    split; [reflexivity | intros _].
    destruct (run_checked start) as [[] | []]; simpl; auto.
  - rewrite (start_vllm_not_owed cfg start st Hflag). simpl.
    split; [intros [] | discriminate].
Qed.

(** C7 as stated fails: called in the initial state, where the flag is
    false, [_start_vllm] returns without issuing the start command. *)
Lemma start_not_unconditional :
  vllm_was_running init_state = false /\
  _start_vllm default_config (Exited 0) init_state = (Ret tt, init_state, []) /\
  ~ In (StartCmd (Exited 0))
       (trace_of (_start_vllm default_config (Exited 0) init_state)).
Proof.
  split; [reflexivity | split; [reflexivity |]].
  simpl. intros [].
Qed.

(** * Properties of one iteration *)

Lemma commands_app tr1 tr2 :
  commands (tr1 ++ tr2) = commands tr1 ++ commands tr2.
Proof. unfold commands. apply List.filter_app. Qed.

Lemma owed_after_app tr1 tr2 owed :
  owed_after owed (tr1 ++ tr2) = owed_after (owed_after owed tr1) tr2.
Proof.
  revert owed. induction tr1 as [| ev tr1 IH]; intros owed; [reflexivity |].
  destruct ev; simpl; apply IH.
Qed.

Lemma no_double_stop_app tr1 tr2 owed :
  no_double_stop owed (tr1 ++ tr2) =
  no_double_stop owed tr1 && no_double_stop (owed_after owed tr1) tr2.
Proof.
  revert owed. induction tr1 as [| ev tr1 IH]; intros owed; [reflexivity |].
  destruct ev; simpl; rewrite ?IH, ?andb_assoc; reflexivity.
Qed.

(** Both monitors look at the commands of a trace only. *)
Lemma owed_after_commands tr owed :
  owed_after owed tr = owed_after owed (commands tr).
Proof.
  revert owed. induction tr as [| ev tr IH]; intros owed; [reflexivity |].
  destruct ev; simpl; apply IH.
Qed.

Lemma no_double_stop_commands tr owed :
  no_double_stop owed tr = no_double_stop owed (commands tr).
Proof.
  revert owed. induction tr as [| ev tr IH]; intros owed; [reflexivity |].
  destruct ev; simpl; rewrite ?IH; reflexivity.
Qed.

Lemma in_commands_stop r tr :
  In (StopCmd r) tr <-> In (StopCmd r) (commands tr).
Proof.
  unfold commands. rewrite filter_In. simpl. tauto.
Qed.

Lemma in_commands_start r tr :
  In (StartCmd r) tr <-> In (StartCmd r) (commands tr).
Proof.
  unfold commands. rewrite filter_In. simpl. tauto.
Qed.

Lemma succeeded_run_checked r :
  run_checked r = Ret tt <-> succeeded r = true.
Proof.
  destruct r as [rc | e]; simpl.
  - destruct (rc =? 0)%Z; split; congruence.
  - split; discriminate.
Qed.

Section Tick.

Variable cfg : Config.

(** What [_stop_vllm] issues and how it leaves the flag. *)
Lemma stop_vllm_summary active stop st :
  let r := _stop_vllm cfg active stop st in
  commands (trace_of r) = (if succeeded active then [StopCmd stop] else []) /\
  vllm_was_running (state_of r) =
    (if succeeded active && succeeded stop then true else vllm_was_running st).
Proof.
  unfold_m. unfold run_checked.
  destruct active as [rc | []]; simpl;
    try destruct (rc =? 0)%Z; simpl; auto;
    destruct stop as [rc' | []]; simpl;
    try destruct (rc' =? 0)%Z; simpl; auto.
Qed.

(** What [_start_vllm] issues and how it leaves the flag. *)
Lemma start_vllm_summary start st :
  let r := _start_vllm cfg start st in
  commands (trace_of r) =
    (if vllm_was_running st then [StartCmd start] else []) /\
  vllm_was_running (state_of r) =
    (if succeeded start then false else vllm_was_running st).
Proof.
  unfold_m. unfold run_checked.
  destruct (vllm_was_running st) eqn:Hflag; simpl.
  - destruct start as [rc | []]; simpl;
      try destruct (rc =? 0)%Z; simpl; auto.
  - rewrite Hflag. destruct (succeeded start); auto.
Qed.

Lemma sleep_interval_summary w st :
  let r := sleep_interval cfg w st in
  commands (trace_of r) = [] /\
  vllm_was_running (state_of r) = vllm_was_running st /\
  gpu_process_start_time (state_of r) = gpu_process_start_time st /\
  (outcome_of r = Ret tt \/ exists e, during_sleep w = Interrupted e
                                      /\ outcome_of r = Raise e).
Proof.
  unfold sleep_interval. unfold_m.
  destruct (during_sleep w) as [| signum | e]; simpl; repeat split; eauto.
Qed.

(** The branch for a non-empty classification: it issues at most the stop
    command, and only past the grace period with the service reported
    active to both queries. *)
Lemma on_contention_summary w procs st :
  let r := on_contention cfg w procs st in
  commands (trace_of r) =
    (if names_logged procs st && grace_elapsed cfg w st
        && succeeded (active_run w) && succeeded (active_stop w)
     then [StopCmd (stop w)] else []) /\
  vllm_was_running (state_of r) =
    owed_after (vllm_was_running st) (trace_of r) /\
  gpu_process_start_time (state_of r) = Some (contention_start w st) /\
  running (state_of r) = running st.
Proof.
  destruct st as [flag timer run].
  unfold on_contention, names_logged, grace_elapsed, contention_start.
  unfold _is_vllm_running. unfold_monad. simpl.
  assert (Hstop : forall st0,
    let r := _stop_vllm cfg (active_stop w) (stop w) st0 in
    commands (trace_of r) =
      (if succeeded (active_stop w) then [StopCmd (stop w)] else []) /\
    vllm_was_running (state_of r) =
      owed_after (vllm_was_running st0) (trace_of r) /\
    gpu_process_start_time (state_of r) = gpu_process_start_time st0 /\
    running (state_of r) = running st0).
  { intros st0.
    destruct (stop_vllm_summary (active_stop w) (stop w) st0) as [Hc Hf].
    destruct (stop_vllm_frame cfg (active_stop w) (stop w) st0) as (Ht & Hr & _).
    cbv zeta. rewrite owed_after_commands, Hc, Hf.
    repeat split; try assumption.
    destruct (succeeded (active_stop w)) eqn:Ea, (succeeded (stop w)) eqn:Es;
      simpl; rewrite ?Es; reflexivity. }
  destruct timer as [started |]; simpl;
    [| destruct (map_outcome name procs) as [names | e]; simpl; auto ];
    (destruct (PrimFloat.leb _ _); simpl; auto;
     destruct (active_run w) as [rc | []]; simpl; auto;
     destruct (rc =? 0)%Z; simpl; auto;
     match goal with
     | |- context [_stop_vllm cfg _ _ ?s] =>
         specialize (Hstop s); unfold_monad;
         destruct (_stop_vllm cfg (active_stop w) (stop w) s) as [[o st2] tr2];
         simpl in *; exact Hstop
     end).
Qed.

(** The branch for an empty classification: it issues at most the start
    command, and only on the iteration that clears the timer. *)
Lemma on_clear_summary w st :
  let r := on_clear cfg w st in
  commands (trace_of r) =
    (if resume_due st then [StartCmd (start w)] else []) /\
  vllm_was_running (state_of r) =
    owed_after (vllm_was_running st) (trace_of r) /\
  gpu_process_start_time (state_of r) = None /\
  running (state_of r) = running st.
Proof.
  destruct st as [flag timer run].
  unfold on_clear, resume_due. unfold_monad. simpl.
  destruct timer as [started |]; simpl; auto.
  destruct flag; simpl; auto.
  set (st1 := set_gpu_process_start_time None (mkState true (Some started) run)).
  destruct (start_vllm_summary (start w) st1) as [Hc Hf].
  destruct (start_vllm_frame cfg (start w) st1) as [Ht Hr].
  unfold_monad.
  destruct (_start_vllm cfg (start w) st1) as [[o st2] tr2]; simpl in *.
  rewrite owed_after_commands, Hc, Hf. simpl.
  destruct (succeeded (start w)); auto.
Qed.

(** One iteration, summed up: the command it issues, the flag and the
    timer it leaves. *)
Lemma tick_summary w st :
  let r := tick cfg w st in
  commands (trace_of r) = tick_command cfg w st /\
  vllm_was_running (state_of r) =
    owed_after (vllm_was_running st) (trace_of r) /\
  gpu_process_start_time (state_of r) = tick_timer cfg w st.
Proof.
  unfold tick, tick_command, tick_timer. unfold_monad.
  destruct (_get_gpu_intensive_processes cfg (snapshot w))
    as [[| p ps] | e]; simpl; auto.
  - destruct (on_clear_summary w st) as (Hc & Hf & Ht & _).
    unfold_monad.
    destruct (on_clear cfg w st) as [[[[] | e] st1] tr1]; simpl in *; auto.
    destruct (sleep_interval_summary w st1) as (Hc2 & Hf2 & Ht2 & _).
    unfold_monad.
    destruct (sleep_interval cfg w st1) as [[o st2] tr2]; simpl in *.
    rewrite commands_app, owed_after_app, Hc, Hc2, app_nil_r, Hf2, Ht2, Hf.
    rewrite (owed_after_commands tr2), Hc2. auto.
  - destruct (on_contention_summary w (p :: ps) st) as (Hc & Hf & Ht & _).
    unfold_monad.
    destruct (on_contention cfg w (p :: ps) st) as [[[[] | e] st1] tr1];
      simpl in *; auto.
    destruct (sleep_interval_summary w st1) as (Hc2 & Hf2 & Ht2 & _).
    unfold_monad.
    destruct (sleep_interval cfg w st1) as [[o st2] tr2]; simpl in *.
    rewrite commands_app, owed_after_app, Hc, Hc2, app_nil_r, Hf2, Ht2, Hf.
    rewrite (owed_after_commands tr2), Hc2. auto.
Qed.

End Tick.

(** An iteration whose classification raises is cut short there. *)
Lemma tick_classifier_raises cfg w st e :
  _get_gpu_intensive_processes cfg (snapshot w) = Raise e ->
  tick cfg w st = (Raise e, st, []).
Proof. intros Hc. unfold tick. unfold_monad. rewrite Hc. reflexivity. Qed.

(** C9. After every iteration that completes, the contention timer
    [gpu_process_start_time] is set exactly when the classification of
    that iteration was not empty. It is set to the clock reading of the
    iteration that first sees contention, kept while contention lasts,
    and cleared by the iteration on which contention clears. *)
Theorem contention_timer_invariant (cfg : Config) (w : TickInput)
    (st st' : State) (tr : list Event) :
  tick cfg w st = (Ret tt, st', tr) ->
  exists found,
    _get_gpu_intensive_processes cfg (snapshot w) = Ret found /\
    (gpu_process_start_time st' <> None <-> found <> []) /\
    (found <> [] ->
     gpu_process_start_time st' =
       match gpu_process_start_time st with
       | None => Some (now_first w)
       | Some started => Some started
       end) /\
    (found = [] -> gpu_process_start_time st' = None).
Proof.
  intros Htick.
  destruct (tick_summary cfg w st) as (_ & _ & Ht).
  rewrite Htick in Ht. unfold state_of, tick_timer in Ht. simpl in Ht.
  destruct (_get_gpu_intensive_processes cfg (snapshot w))
    as [found | e] eqn:Hc.
  - exists found. split; [reflexivity |].
    destruct found as [| p ps]; rewrite Ht; unfold contention_start.
    + repeat split; intros; congruence.
    + destruct (gpu_process_start_time st); repeat split; intros; congruence.
  - rewrite (tick_classifier_raises cfg w st e Hc) in Htick. discriminate.
Qed.

Lemma contention_timer_invariant_witness :
  exists found,
    _get_gpu_intensive_processes default_config
      (snapshot (calm [sshd; rdb_build] 5)) = Ret found /\
    (gpu_process_start_time
       (mkState false (Some 5%float) true) <> None <-> found <> []) /\
    (found <> [] ->
     gpu_process_start_time (mkState false (Some 5%float) true) =
       match gpu_process_start_time init_state with
       | None => Some (now_first (calm [sshd; rdb_build] 5))
       | Some started => Some started
       end) /\
    (found = [] ->
     gpu_process_start_time (mkState false (Some 5%float) true) = None).
Proof.
  apply (contention_timer_invariant default_config
           (calm [sshd; rdb_build] 5) init_state
           (mkState false (Some 5%float) true)
           [Log INFO (MsgDetected ["python"]); Sleep 3]).
  vm_compute. reflexivity.
Defined.

(** When contention has lasted for the grace period and the service is
    reported active, the iteration issues the stop command. *)
Lemma stop_due cfg w st started :
  gpu_process_start_time st = Some started ->
  contended cfg w = true ->
  PrimFloat.leb (grace_period cfg)
    (PrimFloat.sub (now_check w) started) = true ->
  succeeded (active_run w) = true ->
  succeeded (active_stop w) = true ->
  tick_command cfg w st = [StopCmd (stop w)].
Proof.
  intros Ht Hc Hg Hr Hs. unfold tick_command, contended in *.
  destruct (_get_gpu_intensive_processes cfg (snapshot w))
    as [[| p ps] | e]; try discriminate.
  unfold names_logged, grace_elapsed, contention_start.
  rewrite Ht, Hr, Hs, Hg. reflexivity.
Qed.

(** C6. A [systemctl stop] that fails leaves the coordinator state as it
    was: [_stop_vllm] does not raise the flag (nor touch the timer), and
    on a non-zero exit status it logs the error and returns. The
    iteration in which that happens therefore leaves the flag and the
    timer unchanged, and every later iteration that still sees
    contention past the grace period with the service active issues the
    stop command again. *)
Theorem stop_failure_atomic (cfg : Config) (w1 w2 : TickInput)
    (st : State) (started : float) :
  run_checked (stop w1) = Raise CalledProcessError ->
  gpu_process_start_time st = Some started ->
  contended cfg w1 = true ->
  PrimFloat.leb (grace_period cfg)
    (PrimFloat.sub (now_check w1) started) = true ->
  succeeded (active_run w1) = true ->
  succeeded (active_stop w1) = true ->
  (forall st0,
     _stop_vllm cfg (active_stop w1) (stop w1) st0 =
       (Ret tt, st0,
        [IsActiveQuery (active_stop w1);
         Log INFO (MsgStopping (vllm_service cfg)); StopCmd (stop w1);
         Log ERROR (MsgFailedStop (vllm_service cfg))])) /\
  let st1 := state_of (tick cfg w1 st) in
  In (StopCmd (stop w1)) (trace_of (tick cfg w1 st)) /\
  vllm_was_running st1 = vllm_was_running st /\
  gpu_process_start_time st1 = gpu_process_start_time st /\
  (contended cfg w2 = true ->
   PrimFloat.leb (grace_period cfg)
    (PrimFloat.sub (now_check w2) started) = true ->
   succeeded (active_run w2) = true ->
   succeeded (active_stop w2) = true ->
   In (StopCmd (stop w2)) (trace_of (tick cfg w2 st1))).
Proof.
  intros Hfail Ht Hc Hg Hr Hs.
  assert (Hnot : succeeded (stop w1) = false).
  { destruct (succeeded (stop w1)) eqn:E; [| reflexivity].
    apply succeeded_run_checked in E. congruence. }
  split.
  - intros st0. unfold_m. rewrite Hfail.
    destruct (active_stop w1) as [rc | e]; [| discriminate].
    simpl in Hs. rewrite Hs. reflexivity.
  - destruct (tick_summary cfg w1 st) as (Hcmd & Hflag & Htimer).
    rewrite (stop_due cfg w1 st started Ht Hc Hg Hr Hs) in Hcmd.
    assert (Htimer' : gpu_process_start_time (state_of (tick cfg w1 st))
                      = Some started).
    { rewrite Htimer. unfold tick_timer, contended in *.
      destruct (_get_gpu_intensive_processes cfg (snapshot w1))
        as [[| p ps] | e]; try discriminate.
      unfold contention_start. rewrite Ht. reflexivity. }
    cbv zeta. repeat split.
    + apply in_commands_stop. rewrite Hcmd. left. reflexivity.
    + rewrite Hflag, owed_after_commands, Hcmd. simpl. rewrite Hnot.
      reflexivity.
    + congruence.
    + intros Hc2 Hg2 Hr2 Hs2. apply in_commands_stop.
      destruct (tick_summary cfg w2 (state_of (tick cfg w1 st))) as (Hcmd2 & _).
      rewrite Hcmd2.
      rewrite (stop_due cfg w2 _ started Htimer' Hc2 Hg2 Hr2 Hs2).
      left. reflexivity.
Qed.

Lemma stop_failure_atomic_witness :
  let cfg := default_config in
  let w1 := with_stop (Exited 1) (calm [rdb_build] 9) in
  let w2 := calm [rdb_build] 12 in
  let st := mkState false (Some 0%float) true in
  (forall st0,
     _stop_vllm cfg (active_stop w1) (stop w1) st0 =
       (Ret tt, st0,
        [IsActiveQuery (active_stop w1);
         Log INFO (MsgStopping (vllm_service cfg)); StopCmd (stop w1);
         Log ERROR (MsgFailedStop (vllm_service cfg))])) /\
  let st1 := state_of (tick cfg w1 st) in
  In (StopCmd (stop w1)) (trace_of (tick cfg w1 st)) /\
  vllm_was_running st1 = vllm_was_running st /\
  gpu_process_start_time st1 = gpu_process_start_time st /\
  (contended cfg w2 = true ->
   PrimFloat.leb (grace_period cfg)
    (PrimFloat.sub (now_check w2) 0) = true ->
   succeeded (active_run w2) = true ->
   succeeded (active_stop w2) = true ->
   In (StopCmd (stop w2)) (trace_of (tick cfg w2 st1))).
Proof.
  intros cfg w1 w2 st.
  apply (stop_failure_atomic cfg w1 w2 st 0%float).
  - reflexivity.
  - reflexivity.
  - vm_compute. reflexivity.
  - reflexivity.
  - reflexivity.
  - reflexivity.
Defined.

(** The retry, run: the stop fails at t=9 and is issued again at t=12. *)
Example stop_retried_next_tick :
  run_loop default_config
    [with_stop (Exited 1) (calm [rdb_build] 9); calm [rdb_build] 12]
    (mkState false (Some 0%float) true)
  = (Ret LoopPending,
     mkState true (Some 0%float) true,
     [IsActiveQuery (Exited 0); IsActiveQuery (Exited 0);
      Log INFO (MsgStopping "vllm.service"); StopCmd (Exited 1);
      Log ERROR (MsgFailedStop "vllm.service"); Sleep 3;
      IsActiveQuery (Exited 0); IsActiveQuery (Exited 0);
      Log INFO (MsgStopping "vllm.service"); StopCmd (Exited 0); Sleep 3;
      Sleep 3]).
Proof. vm_compute. reflexivity. Qed.

(** * Properties of the loop and of [run] *)

Section Loop.

Variable cfg : Config.

Lemma run_loop_stopped ticks st :
  running st = false -> run_loop cfg ticks st = (Ret LoopExited, st, []).
Proof. intros H. destruct ticks; simpl; rewrite H; reflexivity. Qed.

Lemma run_loop_cons w rest st :
  running st = true ->
  run_loop cfg (w :: rest) st =
    match tick cfg w st with
    | (Ret _, st1, tr1) =>
        match run_loop cfg rest st1 with
        | (o, st2, tr2) => (o, st2, tr1 ++ tr2)
        end
    | (Raise e, st1, tr1) => (Raise e, st1, tr1)
    end.
Proof. intros H. simpl. rewrite H. reflexivity. Qed.

(** A pending loop is still running. *)
Lemma run_loop_pending ticks st st1 tr :
  run_loop cfg ticks st = (Ret LoopPending, st1, tr) -> running st1 = true.
Proof.
  revert st tr. induction ticks as [| w rest IH]; intros st tr; simpl.
  - destruct (running st) eqn:Hr; intros H; inversion H; subst. exact Hr.
  - destruct (running st); [| discriminate].
    destruct (tick cfg w st) as [[[[] | e] s1] t1]; [| discriminate].
    destruct (run_loop cfg rest s1) as [[o s2] t2] eqn:E.
    intros H. inversion H; subst. eapply IH. exact E.
Qed.

(** The loop over more answers continues where the pending one stands. *)
Lemma run_loop_app pre more st st1 tr1 :
  run_loop cfg pre st = (Ret LoopPending, st1, tr1) ->
  run_loop cfg (pre ++ more) st =
    match run_loop cfg more st1 with
    | (o, st2, tr2) => (o, st2, tr1 ++ tr2)
    end.
Proof.
  revert st tr1. induction pre as [| w rest IH]; intros st tr1; simpl.
  - destruct (running st) eqn:Hr; intros H; inversion H; subst.
    simpl. destruct (run_loop cfg more st1) as [[o s2] t2]. reflexivity.
  - destruct (running st); [| discriminate].
    destruct (tick cfg w st) as [[[[] | e] s1] t1]; [| discriminate].
    destruct (run_loop cfg rest s1) as [[o s2] t2] eqn:E.
    intros H. inversion H; subst.
    rewrite (IH _ _ E).
    destruct (run_loop cfg more st1) as [[o' s3] t3].
    rewrite app_assoc. reflexivity.
Qed.

(** The trace of the loop is that of its iterations, one after the
    other. *)
Lemma run_loop_iterations ticks st :
  trace_of (run_loop cfg ticks st) =
  concat (map snd (iterations cfg ticks st)).
Proof.
  revert st. induction ticks as [| w rest IH]; intros st; simpl.
  - destruct (running st); reflexivity.
  - destruct (running st); [| reflexivity].
    destruct (tick cfg w st) as [[[[] | e] s1] t1]; simpl.
    + specialize (IH s1). unfold trace_of in *.
      destruct (run_loop cfg rest s1) as [[o s2] t2]. simpl in *.
      rewrite IH. reflexivity.
    + rewrite app_nil_r. reflexivity.
Qed.

(** What the [finally] block does when a resume is owed. *)
Lemma cleanup_owed start st :
  vllm_was_running st = true ->
  exists after,
    trace_of (cleanup cfg start st) =
      [Log INFO MsgCleanup; Log INFO (MsgRestarting (vllm_service cfg));
       StartCmd start] ++ after.
Proof.
  intros Hflag. unfold cleanup. unfold_monad. rewrite Hflag. simpl.
  rewrite (start_vllm_owed cfg start st Hflag).
  destruct (run_checked start) as [[] | []]; simpl; eexists; reflexivity.
Qed.

(** [run] once the loop has been left: the trace of the loop, the record
    of a caught [KeyboardInterrupt], the [finally] block. *)
Lemma run_exit ticks start st o st1 tr1 :
  run_loop cfg ticks st = (o, st1, tr1) ->
  o <> Ret LoopPending ->
  trace_of (run cfg ticks start st) =
    trace_of (banner cfg st) ++ tr1
    ++ (if match o with Raise KeyboardInterrupt => true | _ => false end
        then [Log INFO MsgInterrupted] else [])
    ++ trace_of (cleanup cfg start st1).
Proof.
  intros Hloop Hexit. unfold run, banner. unfold_monad. simpl.
  rewrite Hloop.
  destruct o as [[] | e]; [| congruence |]; simpl.
  - destruct (cleanup cfg start st1) as [[[[] | e] s2] t2]; reflexivity.
  - destruct e; simpl;
      destruct (cleanup cfg start st1) as [[[[] | e] s2] t2]; simpl;
      rewrite <- ?app_assoc; reflexivity.
Qed.

End Loop.

(** C3. However the loop is left (cancellation by a signal, a caught
    [KeyboardInterrupt], any other exception), if [vllm_was_running] is
    true at that point then the [finally] block of [run] issues the start
    command: the trace of [run] continues, after the trace of the loop,
    with the cleanup record and the start command. *)
Theorem resume_owed_at_exit (cfg : Config) (ticks : list TickInput)
    (cleanup_start : CmdResult) (st : State) :
  outcome_of (run_loop cfg ticks st) <> Ret LoopPending ->
  vllm_was_running (state_of (run_loop cfg ticks st)) = true ->
  exists before after,
    trace_of (run cfg ticks cleanup_start st) =
      trace_of (banner cfg st) ++ trace_of (run_loop cfg ticks st)
      ++ before
      ++ [Log INFO MsgCleanup; Log INFO (MsgRestarting (vllm_service cfg));
          StartCmd cleanup_start]
      ++ after.
Proof.
  destruct (run_loop cfg ticks st) as [[o st1] tr1] eqn:Hloop.
  unfold outcome_of, state_of, trace_of at 3. simpl. intros Hexit Hflag.
  rewrite (run_exit cfg ticks cleanup_start st o st1 tr1 Hloop Hexit).
  destruct (cleanup_owed cfg cleanup_start st1 Hflag) as [after Hafter].
  rewrite Hafter. eexists. exists after. reflexivity.
Qed.

Lemma resume_owed_at_exit_witness :
  exists before after,
    trace_of (run default_config
                [calm [rdb_build] 0;
                 with_sleep (Signalled 15) (calm [rdb_build] 9)]
                (Exited 0) init_state) =
      trace_of (banner default_config init_state)
      ++ trace_of (run_loop default_config
                     [calm [rdb_build] 0;
                      with_sleep (Signalled 15) (calm [rdb_build] 9)]
                     init_state)
      ++ before
      ++ [Log INFO MsgCleanup;
          Log INFO (MsgRestarting (vllm_service default_config));
          StartCmd (Exited 0)]
      ++ after.
Proof.
  apply (resume_owed_at_exit default_config
           [calm [rdb_build] 0; with_sleep (Signalled 15) (calm [rdb_build] 9)]
           (Exited 0) init_state).
  - assert (E : outcome_of (run_loop default_config
                  [calm [rdb_build] 0;
                   with_sleep (Signalled 15) (calm [rdb_build] 9)]
                  init_state) = Ret LoopExited)
      by (vm_compute; reflexivity).
    rewrite E. discriminate.
  - vm_compute. reflexivity.
Defined.

(** The three ways out of the loop, run: a signal, a [KeyboardInterrupt]
    and an exception that is not caught, each with a resume owed. *)
Example exit_by_signal :
  commands (trace_of (run default_config
    [calm [rdb_build] 0; with_sleep (Signalled 15) (calm [rdb_build] 9)]
    (Exited 0) init_state))
  = [StopCmd (Exited 0); StartCmd (Exited 0)].
Proof. vm_compute. reflexivity. Qed.

Example exit_by_keyboard_interrupt :
  run default_config
    [with_sleep (Interrupted KeyboardInterrupt) (calm [rdb_build] 9)]
    (Exited 0) (mkState false (Some 0%float) true)
  = (Ret LoopExited,
     mkState false (Some 0%float) true,
     [Log INFO MsgStarted;
      Log INFO (MsgMonitoring (elements (gpu_intensive_processes default_config)));
      Log INFO (MsgManaging "vllm.service");
      IsActiveQuery (Exited 0); IsActiveQuery (Exited 0);
      Log INFO (MsgStopping "vllm.service"); StopCmd (Exited 0); Sleep 3;
      Sleep 3;
      Log INFO MsgInterrupted;
      Log INFO MsgCleanup; Log INFO (MsgRestarting "vllm.service");
      StartCmd (Exited 0);
      Log INFO MsgStopped]).
Proof. vm_compute. reflexivity. Qed.

Example exit_by_exception :
  run default_config
    [with_sleep (Interrupted OtherError) (calm [rdb_build] 9)]
    (Exited 0) (mkState false (Some 0%float) true)
  = (Raise OtherError,
     mkState false (Some 0%float) true,
     [Log INFO MsgStarted;
      Log INFO (MsgMonitoring (elements (gpu_intensive_processes default_config)));
      Log INFO (MsgManaging "vllm.service");
      IsActiveQuery (Exited 0); IsActiveQuery (Exited 0);
      Log INFO (MsgStopping "vllm.service"); StopCmd (Exited 0); Sleep 3;
      Sleep 3;
      Log INFO MsgCleanup; Log INFO (MsgRestarting "vllm.service");
      StartCmd (Exited 0);
      Log INFO MsgStopped]).
Proof. vm_compute. reflexivity. Qed.

(** C8, as the code has it. The [try] of [run] encloses the whole
    [while] loop and catches [KeyboardInterrupt] only. An exception that
    escapes the body of an iteration ends the loop at that iteration: the
    answers prepared for later iterations are never asked for, the
    [finally] block runs, and unless the exception is a
    [KeyboardInterrupt] it leaves [run] (or the one raised by the
    [finally] block does). *)
Theorem exception_ends_loop (cfg : Config) (pre rest : list TickInput)
    (w : TickInput) (cleanup_start : CmdResult) (st0 st st1 : State)
    (tr0 tr1 : list Event) (e : Exn) :
  run_loop cfg pre st0 = (Ret LoopPending, st, tr0) ->
  tick cfg w st = (Raise e, st1, tr1) ->
  run_loop cfg (pre ++ w :: rest) st0 = (Raise e, st1, tr0 ++ tr1) /\
  trace_of (run cfg (pre ++ w :: rest) cleanup_start st0) =
    trace_of (banner cfg st0) ++ (tr0 ++ tr1)
    ++ (if Exn_eqb e KeyboardInterrupt then [Log INFO MsgInterrupted] else [])
    ++ trace_of (cleanup cfg cleanup_start st1) /\
  (e <> KeyboardInterrupt ->
   outcome_of (run cfg (pre ++ w :: rest) cleanup_start st0) =
     match outcome_of (cleanup cfg cleanup_start st1) with
     | Ret _ => Raise e
     | Raise e' => Raise e'
     end).
Proof.
  intros Hpre Htick.
  assert (Hloop : run_loop cfg (pre ++ w :: rest) st0
                  = (Raise e, st1, tr0 ++ tr1)).
  { rewrite (run_loop_app cfg pre (w :: rest) st0 st tr0 Hpre).
    rewrite (run_loop_cons cfg w rest st (run_loop_pending cfg _ _ _ _ Hpre)).
    rewrite Htick. reflexivity. }
  split; [exact Hloop | split].
  - rewrite (run_exit cfg _ cleanup_start st0 _ _ _ Hloop); [| discriminate].
    destruct e; reflexivity.
  - intros Hne. unfold run, banner. unfold_monad. simpl. rewrite Hloop.
    destruct e; try congruence; simpl;
      destruct (cleanup cfg cleanup_start st1) as [[[[] | e'] s2] t2];
      reflexivity.
Qed.

Lemma exception_ends_loop_witness :
  let cfg := default_config in
  let st := mkState false (Some 0%float) true in
  let st1 := mkState false (Some 3%float) true in
  let tr0 := [Log INFO MsgFinished; Sleep 3] in
  run_loop cfg ([calm [sshd] 2] ++ calm [vanished] 3 :: [calm [sshd] 6]) st
    = (Raise NoSuchProcess, st1, tr0 ++ []) /\
  trace_of (run cfg ([calm [sshd] 2] ++ calm [vanished] 3 :: [calm [sshd] 6])
                (Exited 0) st) =
    trace_of (banner cfg st) ++ (tr0 ++ [])
    ++ (if Exn_eqb NoSuchProcess KeyboardInterrupt
        then [Log INFO MsgInterrupted] else [])
    ++ trace_of (cleanup cfg (Exited 0) st1) /\
  (NoSuchProcess <> KeyboardInterrupt ->
   outcome_of (run cfg ([calm [sshd] 2] ++ calm [vanished] 3 :: [calm [sshd] 6])
                 (Exited 0) st) =
     match outcome_of (cleanup cfg (Exited 0) st1) with
     | Ret _ => Raise NoSuchProcess
     | Raise e' => Raise e'
     end).
Proof.
  intros cfg st st1 tr0.
  apply (exception_ends_loop cfg [calm [sshd] 2] [calm [sshd] 6]
           (calm [vanished] 3) (Exited 0) st
           (mkState false None true) st1 tr0 [] NoSuchProcess).
  - vm_compute. reflexivity.
  - vm_compute. reflexivity.
Defined.

(** C8 as stated fails. The first iteration finds a matching process
    that is gone when its name is read for the log record. The
    [NoSuchProcess] raised there is not caught at the loop boundary: the
    second iteration never runs (no [Sleep] in the trace), only the
    [finally] block does, and [run] raises. *)
Lemma exception_not_caught_at_loop_boundary :
  run default_config [calm [vanished] 0; calm [sshd] 3] (Exited 0) init_state
  = (Raise NoSuchProcess,
     mkState false (Some 0%float) true,
     [Log INFO MsgStarted;
      Log INFO (MsgMonitoring (elements (gpu_intensive_processes default_config)));
      Log INFO (MsgManaging "vllm.service");
      Log INFO MsgStopped]) /\
  length (iterations default_config [calm [vanished] 0; calm [sshd] 3]
            init_state) = 1%nat.
Proof. vm_compute. split; reflexivity. Qed.

Section Resume.

Variable cfg : Config.

(** With the timer clear, iterations that find no GPU process issue no
    command and change neither the flag nor the timer, however many
    there are. *)
Lemma idle_ticks_issue_nothing ticks st :
  gpu_process_start_time st = None ->
  (forall w, In w ticks -> cleared cfg w = true) ->
  let r := run_loop cfg ticks st in
  commands (trace_of r) = [] /\
  vllm_was_running (state_of r) = vllm_was_running st /\
  gpu_process_start_time (state_of r) = None.
Proof.
  revert st. induction ticks as [| w rest IH]; intros st Ht Hall; simpl.
  - destruct (running st); simpl; auto.
  - destruct (running st); simpl; auto.
    destruct (tick_summary cfg w st) as (Hc & Hf & Htm).
    assert (Hclr : cleared cfg w = true) by (apply Hall; left; reflexivity).
    unfold tick_command, tick_timer, cleared, resume_due in *.
    destruct (_get_gpu_intensive_processes cfg (snapshot w))
      as [[| p ps] | e]; try discriminate.
    rewrite Ht in Hc.
    rewrite owed_after_commands, Hc in Hf. simpl in Hf.
    unfold_monad.
    destruct (tick cfg w st) as [[[[] | e] s1] t1]; simpl in *; auto.
    destruct (IH s1 Htm (fun w' H => Hall w' (or_intror H)))
      as (Hc' & Hf' & Ht').
    unfold_monad.
    destruct (run_loop cfg rest s1) as [[o s2] t2]; simpl in *.
    rewrite commands_app, Hc, Hc'. repeat split; congruence.
Qed.

(** An iteration that sees contention does not lower the flag. *)
Lemma contended_tick_keeps_owed w st :
  contended cfg w = true ->
  vllm_was_running st = true ->
  vllm_was_running (state_of (tick cfg w st)) = true /\
  gpu_process_start_time (state_of (tick cfg w st)) <> None.
Proof.
  intros Hc Hflag.
  destruct (tick_summary cfg w st) as (Hcmd & Hf & Htm).
  unfold tick_command, tick_timer, contended in *.
  destruct (_get_gpu_intensive_processes cfg (snapshot w))
    as [[| p ps] | e]; try discriminate.
  split; [| congruence].
  rewrite Hf, owed_after_commands, Hcmd, Hflag.
  destruct (_ && _); simpl; [destruct (succeeded (stop w)) |]; reflexivity.
Qed.

(** An iteration on which contention clears with a resume owed issues
    the start command. *)
Lemma cleared_tick_resumes w st :
  cleared cfg w = true ->
  vllm_was_running st = true ->
  gpu_process_start_time st <> None ->
  commands (trace_of (tick cfg w st)) = [StartCmd (start w)].
Proof.
  intros Hc Hflag Ht.
  destruct (tick_summary cfg w st) as (Hcmd & _).
  rewrite Hcmd. unfold tick_command, cleared, resume_due in *.
  destruct (_get_gpu_intensive_processes cfg (snapshot w))
    as [[| p ps] | e]; try discriminate.
  destruct (gpu_process_start_time st); [| congruence].
  rewrite Hflag. reflexivity.
Qed.

End Resume.

(** C2, as the code has it. When [systemctl start] fails on the
    iteration on which contention clears, the flag stays up and the
    timer is cleared. The start is then not attempted on the following
    iterations that find no GPU process, however many: they issue no
    command. It is attempted again by the [finally] block when the loop
    is left, and on the iteration that ends a later contention episode
    (one iteration with GPU processes, then one without). *)
Theorem failed_resume_retry (cfg : Config) (w w2 w3 : TickInput)
    (idle : list TickInput) (cleanup_start : CmdResult)
    (st : State) (started : float) :
  vllm_was_running st = true ->
  gpu_process_start_time st = Some started ->
  cleared cfg w = true ->
  run_checked (start w) = Raise CalledProcessError ->
  (forall w', In w' idle -> cleared cfg w' = true) ->
  contended cfg w2 = true ->
  cleared cfg w3 = true ->
  let st1 := state_of (tick cfg w st) in
  In (StartCmd (start w)) (trace_of (tick cfg w st)) /\
  vllm_was_running st1 = true /\
  gpu_process_start_time st1 = None /\
  (commands (trace_of (run_loop cfg idle st1)) = [] /\
   vllm_was_running (state_of (run_loop cfg idle st1)) = true /\
   gpu_process_start_time (state_of (run_loop cfg idle st1)) = None) /\
  In (StartCmd cleanup_start) (trace_of (cleanup cfg cleanup_start st1)) /\
  In (StartCmd (start w3))
     (trace_of (tick cfg w3 (state_of (tick cfg w2 st1)))).
Proof.
  intros Hflag Ht Hclr Hfail Hidle Hc2 Hc3.
  assert (Hnot : succeeded (start w) = false).
  { destruct (succeeded (start w)) eqn:E; [| reflexivity].
    apply succeeded_run_checked in E. congruence. }
  assert (Hcmd : commands (trace_of (tick cfg w st)) = [StartCmd (start w)]).
  { apply cleared_tick_resumes; congruence. }
  destruct (tick_summary cfg w st) as (_ & Hf & Htm).
  assert (Hflag1 : vllm_was_running (state_of (tick cfg w st)) = true).
  { rewrite Hf, owed_after_commands, Hcmd. simpl. rewrite Hnot. exact Hflag. }
  assert (Ht1 : gpu_process_start_time (state_of (tick cfg w st)) = None).
  { rewrite Htm. unfold tick_timer, cleared in *.
    destruct (_get_gpu_intensive_processes cfg (snapshot w))
      as [[| p ps] | e]; try discriminate. reflexivity. }
  cbv zeta. split; [| split; [exact Hflag1 | split; [exact Ht1 | split; [| split]]]].
  - apply in_commands_start. rewrite Hcmd. left. reflexivity.
  - destruct (idle_ticks_issue_nothing cfg idle _ Ht1 Hidle) as (Hc & Hf' & Ht').
    repeat split; congruence.
  - destruct (cleanup_owed cfg cleanup_start _ Hflag1) as [after Hafter].
    rewrite Hafter. simpl. auto.
  - destruct (contended_tick_keeps_owed cfg w2 _ Hc2 Hflag1) as [Hf2 Ht2].
    apply in_commands_start.
    rewrite (cleared_tick_resumes cfg w3 _ Hc3 Hf2 Ht2). left. reflexivity.
Qed.

Lemma failed_resume_retry_witness :
  let cfg := default_config in
  let w := with_start (Exited 1) (calm [sshd] 20) in
  let w2 := calm [rdb_build] 40 in
  let w3 := calm [sshd] 43 in
  let idle := [calm [sshd] 23; calm [sshd] 26] in
  let st := mkState true (Some 0%float) true in
  let st1 := state_of (tick cfg w st) in
  In (StartCmd (start w)) (trace_of (tick cfg w st)) /\
  vllm_was_running st1 = true /\
  gpu_process_start_time st1 = None /\
  (commands (trace_of (run_loop cfg idle st1)) = [] /\
   vllm_was_running (state_of (run_loop cfg idle st1)) = true /\
   gpu_process_start_time (state_of (run_loop cfg idle st1)) = None) /\
  In (StartCmd (Exited 0)) (trace_of (cleanup cfg (Exited 0) st1)) /\
  In (StartCmd (start w3))
     (trace_of (tick cfg w3 (state_of (tick cfg w2 st1)))).
Proof.
  intros cfg w w2 w3 idle st.
  apply (failed_resume_retry cfg w w2 w3 idle (Exited 0) st 0%float).
  - reflexivity.
  - reflexivity.
  - vm_compute. reflexivity.
  - reflexivity.
  - intros w' Hin. simpl in Hin.
    destruct Hin as [<- | [<- | []]]; vm_compute; reflexivity.
  - vm_compute. reflexivity.
  - vm_compute. reflexivity.
Defined.

(** C2 as stated fails. The service is stopped at t=9; the job is gone at
    t=20 and the start command fails. The two iterations that follow
    find no GPU process and find the flag still up, and neither attempts
    the start: each leaves only its sleep in the trace, and the one start
    command of the whole loop is the failed one. *)
Lemma failed_resume_not_retried_when_idle :
  iterations default_config
    [calm [rdb_build] 0; calm [rdb_build] 9;
     with_start (Exited 1) (calm [sshd] 20);
     calm [sshd] 23; calm [sshd] 26]
    init_state
  = [(mkState false None true, calm [rdb_build] 0,
      [Log INFO (MsgDetected ["python"]); Sleep 3]);
     (mkState false (Some 0%float) true, calm [rdb_build] 9,
      [IsActiveQuery (Exited 0); IsActiveQuery (Exited 0);
       Log INFO (MsgStopping "vllm.service"); StopCmd (Exited 0); Sleep 3;
       Sleep 3]);
     (mkState true (Some 0%float) true, with_start (Exited 1) (calm [sshd] 20),
      [Log INFO MsgFinished; Sleep 2;
       Log INFO (MsgRestarting "vllm.service"); StartCmd (Exited 1);
       Log ERROR (MsgFailedStart "vllm.service"); Sleep 3]);
     (mkState true None true, calm [sshd] 23, [Sleep 3]);
     (mkState true None true, calm [sshd] 26, [Sleep 3])] /\
  state_of (run_loop default_config
    [calm [rdb_build] 0; calm [rdb_build] 9;
     with_start (Exited 1) (calm [sshd] 20);
     calm [sshd] 23; calm [sshd] 26]
    init_state) = mkState true None true.
Proof. vm_compute. split; reflexivity. Qed.


Section Hysteresis.

Variable cfg : Config.






End Hysteresis.






Section NoDoubleStop.

Variable cfg : Config.

(** A stop command in an iteration means [run] was told the service is
    active. *)
Lemma stop_needs_active w st r :
  In (StopCmd r) (trace_of (tick cfg w st)) ->
  succeeded (active_run w) = true.
Proof.
  intros Hin. apply in_commands_stop in Hin.
  destruct (tick_summary cfg w st) as (Hcmd & _). rewrite Hcmd in Hin.
  unfold tick_command in Hin.
  destruct (_get_gpu_intensive_processes cfg (snapshot w))
    as [[| p ps] | e]; simpl in Hin.
  - destruct (resume_due st); simpl in Hin; intuition discriminate.
  - destruct (succeeded (active_run w)); [reflexivity |].
    rewrite andb_false_r in Hin. destruct Hin.
  - destruct Hin.
Qed.

(** One iteration keeps the monitor and the flag in step, and passes
    the monitor when the service is not reported active while a resume
    is owed. *)
Lemma tick_monitor w st :
  implb (vllm_was_running st) (negb (succeeded (active_run w))) = true ->
  no_double_stop (vllm_was_running st) (trace_of (tick cfg w st)) = true.
Proof.
  intros Hsole.
  destruct (tick_summary cfg w st) as (Hcmd & _).
  rewrite no_double_stop_commands, Hcmd. unfold tick_command.
  destruct (_get_gpu_intensive_processes cfg (snapshot w))
    as [[| p ps] | e]; simpl; try reflexivity.
  - destruct (resume_due st); reflexivity.
  - destruct (vllm_was_running st); simpl in *.
    + destruct (succeeded (active_run w)); [discriminate |].
      rewrite andb_false_r. reflexivity.
    + destruct (_ && _); reflexivity.
Qed.

Lemma sole_controller_cons w rest st :
  running st = true ->
  sole_controller cfg (w :: rest) st =
    implb (vllm_was_running st) (negb (succeeded (active_run w)))
    && match outcome_of (tick cfg w st) with
       | Ret _ => sole_controller cfg rest (state_of (tick cfg w st))
       | Raise _ => true
       end.
Proof.
  intros Hrun. unfold sole_controller. simpl. rewrite Hrun.
  unfold outcome_of, state_of.
  destruct (tick cfg w st) as [[[[] | e] s1] t1]; simpl;
    rewrite ?andb_true_r; reflexivity.
Qed.

Lemma no_double_stop_loop ticks st :
  sole_controller cfg ticks st = true ->
  no_double_stop (vllm_was_running st) (trace_of (run_loop cfg ticks st))
    = true.
Proof.
  revert st. induction ticks as [| w rest IH]; intros st Hsole.
  - simpl. destruct (running st); reflexivity.
  - destruct (running st) eqn:Hrun;
      [| rewrite run_loop_stopped by exact Hrun; reflexivity ].
    rewrite (sole_controller_cons w rest st Hrun) in Hsole.
    apply andb_prop in Hsole. destruct Hsole as [Hhead Htail].
    pose proof (tick_monitor w st Hhead) as Hmon.
    destruct (tick_summary cfg w st) as (_ & Hflag & _).
    rewrite (run_loop_cons cfg w rest st Hrun).
    unfold outcome_of, state_of, trace_of in *.
    destruct (tick cfg w st) as [[[[] | e] s1] t1]; simpl in *;
      [| exact Hmon].
    specialize (IH s1 Htail).
    destruct (run_loop cfg rest s1) as [[o s2] t2]; simpl in *.
    rewrite no_double_stop_app, Hmon, <- Hflag. exact IH.
Qed.

Lemma stop_only_when_not_owed ticks st s w tr r :
  sole_controller cfg ticks st = true ->
  In (s, w, tr) (iterations cfg ticks st) ->
  In (StopCmd r) tr ->
  vllm_was_running s = false.
Proof.
  revert st. induction ticks as [| w0 rest IH]; intros st Hsole Hin Hstop.
  - simpl in Hin. destruct (running st); destruct Hin.
  - destruct (running st) eqn:Hrun;
      [| simpl in Hin; rewrite Hrun in Hin; destruct Hin ].
    rewrite (sole_controller_cons w0 rest st Hrun) in Hsole.
    apply andb_prop in Hsole. destruct Hsole as [Hhead Htail].
    simpl in Hin. rewrite Hrun in Hin.
    assert (Hthis : In (StopCmd r) (trace_of (tick cfg w0 st)) ->
                    vllm_was_running st = false).
    { intros H. apply stop_needs_active in H. rewrite H in Hhead.
      destruct (vllm_was_running st); [discriminate | reflexivity]. }
    unfold outcome_of, state_of, trace_of in *.
    destruct (tick cfg w0 st) as [[[[] | e] s1] t1]; simpl in *.
    + destruct Hin as [Heq | Hin].
      * inversion Heq; subst. apply Hthis, Hstop.
      * apply (IH s1 Htail Hin Hstop).
    + destruct Hin as [Heq | []]. inversion Heq; subst. apply Hthis, Hstop.
Qed.

End NoDoubleStop.

(** C1, as the code has it. What decides on the stop command is the
    live answer of the service manager, not the flag. Provided the service
    manager never reports the service active to the loop while
    [vllm_was_running] is true (nobody else starts the service the
    coordinator has stopped), then for every sequence of iterations from
    the initial state the stop command is never issued in an iteration
    that starts with the flag true, and in the trace of the loop no stop
    command comes after a successful stop without a successful start in
    between. *)
Theorem no_double_stop_sole_controller (cfg : Config)
    (ticks : list TickInput) :
  sole_controller cfg ticks init_state = true ->
  (forall s w tr r,
     In (s, w, tr) (iterations cfg ticks init_state) ->
     In (StopCmd r) tr ->
     vllm_was_running s = false) /\
  no_double_stop false (trace_of (run_loop cfg ticks init_state)) = true.
Proof.
  intros Hsole. split.
  - intros s w tr r. apply (stop_only_when_not_owed cfg ticks init_state).
    exact Hsole.
  - apply (no_double_stop_loop cfg ticks init_state Hsole).
Qed.

Lemma no_double_stop_sole_controller_witness :
  let ticks :=
    [calm [rdb_build] 0; calm [rdb_build] 9;
     with_active (Exited 3) (calm [rdb_build] 12);
     with_active (Exited 3) (calm [sshd] 20);
     calm [rdb_build] 30; calm [rdb_build] 39] in
  (forall s w tr r,
     In (s, w, tr) (iterations default_config ticks init_state) ->
     In (StopCmd r) tr ->
     vllm_was_running s = false) /\
  no_double_stop false (trace_of (run_loop default_config ticks init_state))
    = true.
Proof.
  intros ticks.
  apply (no_double_stop_sole_controller default_config ticks).
  vm_compute. reflexivity.
Defined.

(** C1 as stated fails. The service is stopped at t=9 and the flag goes
    up. Somebody else starts the service again while the job is still
    running; at t=12 the service manager reports it active and the
    coordinator issues the stop command a second time, in an iteration
    that starts with the flag true and with no start in between. *)
Lemma double_stop_after_external_restart :
  iterations default_config
    [calm [rdb_build] 0; calm [rdb_build] 9; calm [rdb_build] 12]
    init_state
  = [(mkState false None true, calm [rdb_build] 0,
      [Log INFO (MsgDetected ["python"]); Sleep 3]);
     (mkState false (Some 0%float) true, calm [rdb_build] 9,
      [IsActiveQuery (Exited 0); IsActiveQuery (Exited 0);
       Log INFO (MsgStopping "vllm.service"); StopCmd (Exited 0); Sleep 3;
       Sleep 3]);
     (mkState true (Some 0%float) true, calm [rdb_build] 12,
      [IsActiveQuery (Exited 0); IsActiveQuery (Exited 0);
       Log INFO (MsgStopping "vllm.service"); StopCmd (Exited 0); Sleep 3;
       Sleep 3])] /\
  commands (trace_of (run_loop default_config
    [calm [rdb_build] 0; calm [rdb_build] 9; calm [rdb_build] 12]
    init_state))
  = [StopCmd (Exited 0); StopCmd (Exited 0)] /\
  no_double_stop false (trace_of (run_loop default_config
    [calm [rdb_build] 0; calm [rdb_build] 9; calm [rdb_build] 12]
    init_state)) = false.
Proof. vm_compute. repeat split; reflexivity. Qed.

(** With nobody else touching the service, two episodes give stop,
    start, stop. *)
Example two_episodes :
  commands (trace_of (run_loop default_config
    [calm [rdb_build] 0; calm [rdb_build] 9;
     with_active (Exited 3) (calm [rdb_build] 12);
     with_active (Exited 3) (calm [sshd] 20);
     calm [rdb_build] 30; calm [rdb_build] 39]
    init_state))
  = [StopCmd (Exited 0); StartCmd (Exited 0); StopCmd (Exited 0)].
Proof. vm_compute. reflexivity. Qed.

(** * Further properties of the classifier *)

Section Substrings.

Local Open Scope string_scope.

Lemma append_cons c (a b : string) : String c a ++ b = String c (a ++ b).
Proof. reflexivity. Qed.

Lemma append_nil (b : string) : "" ++ b = b.
Proof. reflexivity. Qed.

Lemma prefix_split pat s :
  String.prefix pat s = true <-> exists rest, s = pat ++ rest.
Proof.
  revert s. induction pat as [| c pat IH]; intros s.
  - split; [intros _; exists s; reflexivity | intros _].
    destruct s; reflexivity.
  - destruct s as [| d s]; simpl.
    + split; [discriminate | intros [rest H]; discriminate].
    + destruct (ascii_dec c d) as [-> | Hne].
      * rewrite IH. split; intros [rest H]; exists rest;
          rewrite append_cons in *; congruence.
      * split; [discriminate |].
        intros [rest H]. rewrite append_cons in H. congruence.
Qed.

(** [pat in s] holds exactly when [s] is some text, then [pat], then
    some text. *)
Lemma contains_split pat s :
  Str.contains pat s = true <-> exists before after, s = before ++ pat ++ after.
Proof.
  induction s as [| c s IH].
  - change (Str.contains pat "") with (String.prefix pat "" || false).
    rewrite orb_false_r, prefix_split. split.
    + intros [rest H]. exists "", rest. exact H.
    + intros (before & after & H). destruct before as [| d before].
      * exists after. exact H.
      * rewrite append_cons in H. discriminate.
  - change (Str.contains pat (String c s))
      with (String.prefix pat (String c s) || Str.contains pat s).
    rewrite orb_true_iff, prefix_split, IH. split.
    + intros [[rest H] | (before & after & H)].
      * exists "", rest. exact H.
      * exists (String c before), after. rewrite append_cons. congruence.
    + intros (before & after & H). destruct before as [| d before].
      * left. exists after. exact H.
      * right. exists before, after. rewrite append_cons in H. congruence.
Qed.

Lemma string_app_assoc (a b c : string) : (a ++ b) ++ c = a ++ b ++ c.
Proof.
  induction a as [| x a IH]; [reflexivity |].
  rewrite !append_cons, IH. reflexivity.
Qed.

Lemma string_app_nil_r (a : string) : a ++ "" = a.
Proof.
  induction a as [| x a IH]; [reflexivity |].
  rewrite append_cons, IH. reflexivity.
Qed.

Lemma contains_context pat s before after :
  Str.contains pat s = true ->
  Str.contains pat (before ++ s ++ after) = true.
Proof.
  rewrite !contains_split. intros (x & y & ->).
  exists (before ++ x), (y ++ after).
  rewrite !string_app_assoc. reflexivity.
Qed.

Lemma contains_trans a b s :
  Str.contains a b = true -> Str.contains b s = true ->
  Str.contains a s = true.
Proof.
  intros Hab Hbs. apply contains_split in Hbs.
  destruct Hbs as (x & y & ->). apply contains_context, Hab.
Qed.

Lemma lower_app a b : Str.lower (a ++ b) = Str.lower a ++ Str.lower b.
Proof.
  induction a as [| c a IH]; [reflexivity |].
  rewrite append_cons. simpl. rewrite IH. reflexivity.
Qed.

Lemma contains_lower pat s :
  Str.contains pat s = true ->
  Str.contains (Str.lower pat) (Str.lower s) = true.
Proof.
  rewrite !contains_split. intros (x & y & ->).
  exists (Str.lower x), (Str.lower y). rewrite !lower_app. reflexivity.
Qed.

Lemma join_app a b :
  exists mid,
    Str.join " " (a ++ b)%list = Str.join " " a ++ mid ++ Str.join " " b.
Proof.
  induction a as [| x a IH].
  - exists "". reflexivity.
  - destruct a as [| y a].
    + destruct b as [| z b].
      * exists "". simpl. rewrite append_nil, string_app_nil_r. reflexivity.
      * exists " ". reflexivity.
    + destruct IH as [mid Hmid]. exists mid.
      change (Str.join " " ((x :: y :: a) ++ b)%list)
        with (x ++ " " ++ Str.join " " ((y :: a) ++ b)%list).
      change (Str.join " " (x :: y :: a))
        with (x ++ " " ++ Str.join " " (y :: a)).
      rewrite Hmid, !string_app_assoc. reflexivity.
Qed.

(** Joining more arguments around [args] keeps the joined [args] as a
    contiguous part of the command line. *)
Lemma join_context pre args post :
  exists before after,
    Str.join " " (pre ++ args ++ post)%list
    = before ++ Str.join " " args ++ after.
Proof.
  destruct (join_app pre (args ++ post)%list) as [m1 H1].
  destruct (join_app args post) as [m2 H2].
  exists (Str.join " " pre ++ m1), (m2 ++ Str.join " " post).
  rewrite H1, H2, !string_app_assoc. reflexivity.
Qed.

End Substrings.

(** X1. A process whose [cmdline()] raises [NoSuchProcess] or
    [AccessDenied] is skipped without a trace: the classification of a
    snapshot that holds it, anywhere, is the classification of the
    snapshot without it, be that a result or an error raised by another
    process. *)
Theorem classifier_skips_uninspectable (cfg : Config)
    (pre post : list Process) (proc : Process) :
  swallowed proc = true ->
  _get_gpu_intensive_processes cfg (pre ++ proc :: post)
  = _get_gpu_intensive_processes cfg (pre ++ post).
Proof.
  intros Hsw.
  assert (Hv : _is_process_gpu_intensive cfg proc = Ret false).
  { unfold swallowed in Hsw. unfold _is_process_gpu_intensive.
    destruct (cmdline proc) as [args | []]; try discriminate; reflexivity. }
  induction pre as [| q pre IH]; simpl.
  - rewrite Hv.
    destruct (_get_gpu_intensive_processes cfg post); reflexivity.
  - rewrite IH. reflexivity.
Qed.

Lemma classifier_skips_uninspectable_witness :
  _get_gpu_intensive_processes default_config
    ([sshd; rdb_build] ++ denied :: [broken])
  = _get_gpu_intensive_processes default_config ([sshd; rdb_build] ++ [broken]).
Proof.
  apply (classifier_skips_uninspectable default_config
           [sshd; rdb_build] [broken] denied).
  reflexivity.
Defined.

(** X2. The classifier as a whole fails in one case only: some process
    of the snapshot raises, from [cmdline()], an error other than
    [NoSuchProcess] and [AccessDenied]; the error of the first such
    process met is then raised, and no result is returned. Otherwise a
    result is returned, and a process is in it exactly when it is in
    the snapshot with a positive verdict. *)
Theorem classifier_result_or_first_error (cfg : Config)
    (snap : list Process) :
  match List.find (fun proc => negb (inspectable proc)) snap with
  | None =>
      exists found,
        _get_gpu_intensive_processes cfg snap = Ret found /\
        forall proc,
          In proc found <-> In proc snap /\ verdict cfg proc = true
  | Some proc =>
      exists e, cmdline proc = Raise e /\
                e <> NoSuchProcess /\ e <> AccessDenied /\
                _get_gpu_intensive_processes cfg snap = Raise e
  end.
Proof.
  induction snap as [| q rest IH].
  - exists []. split; [reflexivity |]. simpl. tauto.
  - simpl. destruct (inspectable q) eqn:Hq; simpl.
    + rewrite (inspectable_returns cfg q Hq).
      destruct (List.find _ rest) as [bad |].
      * destruct IH as (e & He & Hn1 & Hn2 & Hr). exists e.
        rewrite Hr. repeat split; assumption.
      * destruct IH as (found & Hr & Hmem). rewrite Hr.
        exists (if verdict cfg q then q :: found else found).
        split; [reflexivity |]. intros proc.
        destruct (verdict cfg q) eqn:Hv; simpl; rewrite Hmem;
          intuition congruence.
    + unfold inspectable in Hq. unfold _is_process_gpu_intensive.
      destruct (cmdline q) as [args | []] eqn:Hc; try discriminate;
        eexists; (split; [reflexivity |]); repeat split; discriminate.
Qed.

Example classifier_fails_on_other_error :
  _get_gpu_intensive_processes default_config [rdb_build; broken; sshd]
  = Raise OtherError.
Proof. vm_compute. reflexivity. Qed.

Section Matching.

Variable cfg : Config.

Lemma verdict_cases pid0 name0 args :
  verdict cfg (mkProcess pid0 name0 (Ret args))
  = matches_pattern cfg (Str.join " " args)
    || matches_keyword (Str.join " " args).
Proof.
  unfold verdict, _is_process_gpu_intensive. simpl.
  destruct (matches_pattern cfg _); [reflexivity |].
  destruct (matches_keyword _); reflexivity.
Qed.

Lemma matches_pattern_iff cmd :
  matches_pattern cfg cmd = true <->
  exists pattern, pattern ∈ gpu_intensive_processes cfg
                  /\ Str.contains pattern cmd = true.
Proof.
  unfold matches_pattern. rewrite existsb_exists.
  split; intros (p & Hin & Hc); exists p; split; try exact Hc.
  - apply elem_of_elements, list_elem_of_In, Hin.
  - apply list_elem_of_In, elem_of_elements, Hin.
Qed.

End Matching.

(** X3. A match survives more arguments: when a command line is
    classified GPU-intensive, so is every command line that holds the
    same arguments, in a row, among others before and after. *)
Theorem match_survives_more_arguments (cfg : Config)
    (pid1 pid2 : Z) (name1 name2 : Outcome string)
    (pre args post : list string) :
  verdict cfg (mkProcess pid1 name1 (Ret args)) = true ->
  verdict cfg (mkProcess pid2 name2 (Ret (pre ++ args ++ post))) = true.
Proof.
  rewrite !verdict_cases, !orb_true_iff.
  destruct (join_context pre args post) as (before & after & Hjoin).
  rewrite Hjoin. intros [Hp | Hk].
  - left. apply matches_pattern_iff in Hp. destruct Hp as (p & Hin & Hc).
    apply matches_pattern_iff. exists p. split; [exact Hin |].
    apply contains_context, Hc.
  - right. unfold matches_keyword in *. apply existsb_exists in Hk.
    destruct Hk as (k & Hin & Hc). apply existsb_exists. exists k.
    split; [exact Hin |]. rewrite !lower_app. apply contains_context, Hc.
Qed.

Lemma match_survives_more_arguments_witness :
  verdict default_config
    (mkProcess 9 (Ret "bash")
       (Ret (["bash"; "-c"] ++ ["./rebuild.sh"] ++ ["--quiet"]))) = true.
Proof.
  apply (match_survives_more_arguments default_config 8 9
           (Ret "rebuild.sh") (Ret "bash")
           ["bash"; "-c"] ["./rebuild.sh"] ["--quiet"]).
  vm_compute. reflexivity.
Defined.

(** X4. Under the configured patterns and keywords, four of the six
    patterns and the longer of the other two never decide anything: for
    every command line the verdict is "it holds [rdb] as written, or it
    holds one of the keywords once lower-cased". *)
Theorem default_patterns_collapse (pid0 : Z) (name0 : Outcome string)
    (args : list string) :
  _is_process_gpu_intensive default_config (mkProcess pid0 name0 (Ret args))
  = Ret (Str.contains "rdb" (Str.join " " args)
         || matches_keyword (Str.join " " args)).
Proof.
  unfold _is_process_gpu_intensive. simpl.
  set (cmd := Str.join " " args).
  destruct (matches_pattern default_config cmd) eqn:Hp.
  - apply matches_pattern_iff in Hp. destruct Hp as (p & Hin & Hc).
    apply configured_patterns in Hin.
    assert (Hkey : forall keyword,
              In keyword gpu_keywords ->
              Str.contains keyword (Str.lower p) = true ->
              matches_keyword cmd = true).
    { intros k Hk Hkp. apply (keyword_hit k cmd Hk).
      apply (contains_trans k (Str.lower p)); [exact Hkp |].
      apply contains_lower, Hc. }
    assert (H : Str.contains "rdb" cmd || matches_keyword cmd = true).
    { apply orb_true_iff. simpl in Hin.
      destruct Hin as [<- | [<- | [<- | [<- | [<- | [<- | []]]]]]].
      - left. exact Hc.
      - left. apply (contains_trans "rdb" "python -m rdb");
          [reflexivity | exact Hc].
      - right. apply (Hkey "embed"); [simpl; tauto | reflexivity].
      - right. apply (Hkey "index"); [simpl; tauto | reflexivity].
      - right. apply (Hkey "train"); [simpl; tauto | reflexivity].
      - right. apply (Hkey "finetune"); [simpl; tauto | reflexivity]. }
    rewrite H. reflexivity.
  - assert (Hr : Str.contains "rdb" cmd = false).
    { destruct (Str.contains "rdb" cmd) eqn:E; [| reflexivity].
      rewrite (pattern_hit default_config "rdb" cmd rdb_configured E) in Hp.
      discriminate. }
    rewrite Hr. simpl. destruct (matches_keyword cmd); reflexivity.
Qed.

Lemma contains_in_empty pat : Str.contains pat "" = true -> pat = "".
Proof. destruct pat; [reflexivity | discriminate]. Qed.

Lemma contains_empty s : Str.contains "" s = true.
Proof. destruct s; reflexivity. Qed.

(** X5. A process with an empty command line (a kernel thread) is
    classified GPU-intensive exactly when the empty string is one of
    the configured patterns; no keyword ever matches it. *)
Theorem empty_cmdline_verdict (cfg : Config) (pid0 : Z)
    (name0 : Outcome string) :
  _is_process_gpu_intensive cfg (mkProcess pid0 name0 (Ret []))
  = Ret (bool_decide ("" ∈ gpu_intensive_processes cfg)).
Proof.
  unfold _is_process_gpu_intensive. simpl.
  change (matches_keyword "") with false.
  destruct (matches_pattern cfg "") eqn:Hp.
  - apply matches_pattern_iff in Hp. destruct Hp as (p & Hin & Hc).
    apply contains_in_empty in Hc. subst p.
    rewrite (bool_decide_eq_true_2 _ Hin). reflexivity.
  - rewrite bool_decide_eq_false_2; [reflexivity |].
    intros Hin. rewrite (pattern_hit cfg "" "" Hin eq_refl) in Hp.
    discriminate.
Qed.

(** X6. The empty string as a configured pattern matches everything:
    every process whose command line can be read is classified
    GPU-intensive, whatever the command line. *)
Theorem empty_pattern_matches_all (cfg : Config) (pid0 : Z)
    (name0 : Outcome string) (args : list string) :
  "" ∈ gpu_intensive_processes cfg ->
  _is_process_gpu_intensive cfg (mkProcess pid0 name0 (Ret args)) = Ret true.
Proof.
  intros Hin. unfold _is_process_gpu_intensive. simpl.
  rewrite (pattern_hit cfg "" _ Hin (contains_empty _)). reflexivity.
Qed.

Lemma empty_pattern_matches_all_witness :
  _is_process_gpu_intensive
    (mkConfig "vllm.service" 3 8 (list_to_set ["rdb"; ""]))
    (mkProcess 811 (Ret "sshd") (Ret ["sshd: user@pts/0"])) = Ret true.
Proof.
  apply (empty_pattern_matches_all
           (mkConfig "vllm.service" 3 8 (list_to_set ["rdb"; ""]))).
  apply elem_of_list_to_set, list_elem_of_In. simpl. right. left. reflexivity.
Defined.

(** * Further properties of the service controller *)

(** X7. [_stop_vllm] is a no-op when the service is not reported
    active: the query exits with a non-zero status, or fails with an
    error. No stop command is issued, whatever it would have done, the
    state is unchanged and the call returns. *)
Theorem stop_noop_when_inactive (cfg : Config) (active stop : CmdResult)
    (st : State) :
  succeeded active = false ->
  active <> NotRun KeyboardInterrupt ->
  _stop_vllm cfg active stop st = (Ret tt, st, [IsActiveQuery active]).
Proof.
  intros Hin Hki. unfold_m.
  destruct active as [rc | []]; simpl in *; try congruence.
  rewrite Hin. reflexivity.
Qed.

Lemma stop_noop_when_inactive_witness :
  _stop_vllm default_config (NotRun OtherError) (Exited 0) init_state
  = (Ret tt, init_state, [IsActiveQuery (NotRun OtherError)]).
Proof.
  apply (stop_noop_when_inactive default_config (NotRun OtherError)
           (Exited 0) init_state).
  - reflexivity.
  - discriminate.
Defined.

(** X8. Stop then start is a round trip: from a state in which no
    resume is owed, a successful [_stop_vllm] followed by a successful
    [_start_vllm] gives the state back, with the stop command, the
    settle sleep of 3 seconds and the start command in between. *)
Theorem stop_start_round_trip (cfg : Config) (st : State) :
  vllm_was_running st = false ->
  (_stop_vllm cfg (Exited 0) (Exited 0) ;;; _start_vllm cfg (Exited 0)) st
  = (Ret tt, st,
     [IsActiveQuery (Exited 0);
      Log INFO (MsgStopping (vllm_service cfg)); StopCmd (Exited 0); Sleep 3;
      Log INFO (MsgRestarting (vllm_service cfg)); StartCmd (Exited 0)]).
Proof.
  intros Hflag.
  destruct st as [flag timer run]. simpl in Hflag. subst flag. reflexivity.
Qed.

Lemma stop_start_round_trip_witness :
  (_stop_vllm default_config (Exited 0) (Exited 0) ;;;
   _start_vllm default_config (Exited 0)) (mkState false (Some 0%float) true)
  = (Ret tt, mkState false (Some 0%float) true,
     [IsActiveQuery (Exited 0);
      Log INFO (MsgStopping (vllm_service default_config));
      StopCmd (Exited 0); Sleep 3;
      Log INFO (MsgRestarting (vllm_service default_config));
      StartCmd (Exited 0)]).
Proof.
  apply (stop_start_round_trip default_config (mkState false (Some 0%float) true)).
  reflexivity.
Defined.

(** X9. A resume is paid once: after a [_start_vllm] whose command
    succeeds, or that found nothing owed, the flag is false and a
    second call does nothing, whatever its command would have done. *)
Theorem start_twice_starts_once (cfg : Config) (again : CmdResult)
    (st : State) :
  let st1 := state_of (_start_vllm cfg (Exited 0) st) in
  vllm_was_running st1 = false /\
  _start_vllm cfg again st1 = (Ret tt, st1, []).
Proof.
  cbv zeta.
  assert (H : vllm_was_running (state_of (_start_vllm cfg (Exited 0) st))
              = false).
  { destruct (start_vllm_summary cfg (Exited 0) st) as [_ Hf].
    rewrite Hf. reflexivity. }
  split; [exact H | apply start_vllm_not_owed, H].
Qed.

(** * Further properties of one iteration *)

(** X10. When an iteration issues the stop command: exactly when the
    classification is not empty, the names could be logged if this is
    first sight, the test [elapsed >= self.grace_period] passes on the
    float difference between the clock reading and the contention
    start, and the service is reported active twice, to [run] and to
    [_stop_vllm]. The command is the one of this iteration. *)
Theorem stop_issued_iff (cfg : Config) (w : TickInput) (st : State)
    (r : CmdResult) :
  In (StopCmd r) (trace_of (tick cfg w st)) <->
  r = stop w /\
  (exists p ps,
     _get_gpu_intensive_processes cfg (snapshot w) = Ret (p :: ps) /\
     names_logged (p :: ps) st = true) /\
  PrimFloat.leb (grace_period cfg)
    (PrimFloat.sub (now_check w) (contention_start w st)) = true /\
  succeeded (active_run w) = true /\
  succeeded (active_stop w) = true.
Proof.
  rewrite in_commands_stop.
  destruct (tick_summary cfg w st) as (Hcmd & _). rewrite Hcmd.
  unfold tick_command, grace_elapsed.
  destruct (_get_gpu_intensive_processes cfg (snapshot w))
    as [[| p ps] | e].
  - split.
    + destruct (resume_due st); simpl; intuition discriminate.
    + intros (_ & (p & ps & H & _) & _). discriminate.
  - destruct (names_logged (p :: ps) st) eqn:Hn,
             (PrimFloat.leb _ _) eqn:Hg,
             (succeeded (active_run w)) eqn:Ha,
             (succeeded (active_stop w)) eqn:Hs; simpl;
      split;
      try (intros []; fail);
      try (intros (_ & (p' & ps' & H & Hn') & Hg' & Ha' & Hs');
           inversion H; subst; congruence).
    intros [H | []]. inversion H. repeat split; eauto.
    intros (-> & _). left. reflexivity.
  - split; [intros [] |].
    intros (_ & (p & ps & H & _) & _). discriminate.
Qed.

(** X11. When an iteration issues the start command: exactly when the
    classification is empty, the contention timer is still set and the
    flag is up. The command is the one of this iteration. *)
Theorem start_issued_iff (cfg : Config) (w : TickInput) (st : State)
    (r : CmdResult) :
  In (StartCmd r) (trace_of (tick cfg w st)) <->
  r = start w /\
  _get_gpu_intensive_processes cfg (snapshot w) = Ret [] /\
  gpu_process_start_time st <> None /\
  vllm_was_running st = true.
Proof.
  rewrite in_commands_start.
  destruct (tick_summary cfg w st) as (Hcmd & _). rewrite Hcmd.
  unfold tick_command, resume_due.
  destruct (_get_gpu_intensive_processes cfg (snapshot w))
    as [[| p ps] | e].
  - destruct (gpu_process_start_time st) as [started |];
      [destruct (vllm_was_running st) |]; simpl; split;
      try (intros []; fail);
      try (intros (_ & _ & Ht & Hf); congruence).
    + intros [H | []]. inversion H. repeat split; congruence.
    + intros (-> & _). left. reflexivity.
  - split.
    + destruct (_ && _); simpl; intuition discriminate.
    + intros (_ & H & _). discriminate.
  - split; [intros [] | intros (_ & H & _); discriminate].
Qed.

(** X12. An iteration issues at most one command to the service
    manager: never a stop and a start, never the same one twice. *)
Theorem at_most_one_command (cfg : Config) (w : TickInput) (st : State) :
  commands (trace_of (tick cfg w st)) = []
  \/ commands (trace_of (tick cfg w st)) = [StopCmd (stop w)]
  \/ commands (trace_of (tick cfg w st)) = [StartCmd (start w)].
Proof.
  destruct (tick_summary cfg w st) as (Hcmd & _). rewrite Hcmd.
  unfold tick_command.
  destruct (_get_gpu_intensive_processes cfg (snapshot w))
    as [[| p ps] | e]; auto.
  - destruct (resume_due st); auto.
  - destruct (_ && _); auto.
Qed.

(** * Further properties of the loop and of [run] *)

Section Run.

Variable cfg : Config.

(** The [finally] block: the command it issues and the flag it leaves. *)
Lemma cleanup_summary start st :
  let r := cleanup cfg start st in
  commands (trace_of r) =
    (if vllm_was_running st then [StartCmd start] else []) /\
  vllm_was_running (state_of r) =
    owed_after (vllm_was_running st) (trace_of r).
Proof.
  unfold cleanup. unfold_monad.
  destruct (vllm_was_running st) eqn:Hflag; simpl.
  - rewrite (start_vllm_owed cfg start st Hflag).
    destruct start as [rc | []]; simpl;
      try (destruct (rc =? 0)%Z eqn:E; simpl; rewrite ?E); rewrite ?Hflag;
      auto.
  - rewrite Hflag. auto.
Qed.

(** The flag after the loop is the one the commands of its trace
    account for. *)
Lemma run_loop_flag ticks st :
  vllm_was_running (state_of (run_loop cfg ticks st))
  = owed_after (vllm_was_running st) (trace_of (run_loop cfg ticks st)).
Proof.
  revert st. induction ticks as [| w rest IH]; intros st; simpl.
  - destruct (running st); reflexivity.
  - destruct (running st); [| reflexivity].
    destruct (tick_summary cfg w st) as (_ & Hf & _).
    unfold state_of, trace_of in *.
    destruct (tick cfg w st) as [[[[] | e] s1] t1]; simpl in *;
      [| exact Hf].
    specialize (IH s1).
    destruct (run_loop cfg rest s1) as [[o s2] t2]; simpl in *.
    rewrite owed_after_app, <- Hf. exact IH.
Qed.

(** [run], taken apart: the banner, the loop, and once the loop is left
    the record of a caught [KeyboardInterrupt] and the [finally] block. *)
Lemma run_parts ticks start st :
  run cfg ticks start st =
    match run_loop cfg ticks st with
    | (Ret LoopPending, st1, tr1) =>
        (Ret LoopPending, st1, trace_of (banner cfg st) ++ tr1)
    | (o, st1, tr1) =>
        let caught :=
          match o with Raise KeyboardInterrupt => true | _ => false end in
        (match outcome_of (cleanup cfg start st1) with
         | Raise e => Raise e
         | Ret _ => if caught then Ret LoopExited else o
         end,
         state_of (cleanup cfg start st1),
         trace_of (banner cfg st) ++ tr1
         ++ (if caught then [Log INFO MsgInterrupted] else [])
         ++ trace_of (cleanup cfg start st1))
    end.
Proof.
  unfold run, banner. unfold_monad. simpl.
  destruct (run_loop cfg ticks st) as [[[[] | e] st1] tr1]; simpl;
    try reflexivity.
  - destruct (cleanup cfg start st1) as [[[[] | e] s2] t2]; reflexivity.
  - destruct e; simpl;
      destruct (cleanup cfg start st1) as [[[[] | e'] s2] t2]; simpl;
      rewrite <- ?app_assoc; reflexivity.
Qed.

Lemma starts_owed_app tr1 tr2 owed :
  starts_owed owed (tr1 ++ tr2) =
  starts_owed owed tr1 && starts_owed (owed_after owed tr1) tr2.
Proof.
  revert owed. induction tr1 as [| ev tr1 IH]; intros owed; [reflexivity |].
  destruct ev; simpl; rewrite ?IH, ?andb_assoc; reflexivity.
Qed.

Lemma starts_owed_commands tr owed :
  starts_owed owed tr = starts_owed owed (commands tr).
Proof.
  revert owed. induction tr as [| ev tr IH]; intros owed; [reflexivity |].
  destruct ev; simpl; rewrite ?IH; reflexivity.
Qed.

Lemma tick_starts_owed w st :
  starts_owed (vllm_was_running st) (trace_of (tick cfg w st)) = true.
Proof.
  destruct (tick_summary cfg w st) as (Hcmd & _).
  rewrite starts_owed_commands, Hcmd. unfold tick_command, resume_due.
  destruct (_get_gpu_intensive_processes cfg (snapshot w))
    as [[| p ps] | e]; simpl; try reflexivity.
  - destruct (gpu_process_start_time st); [| reflexivity].
    destruct (vllm_was_running st); reflexivity.
  - destruct (_ && _); reflexivity.
Qed.

Lemma run_loop_starts_owed ticks st :
  starts_owed (vllm_was_running st) (trace_of (run_loop cfg ticks st)) = true.
Proof.
  revert st. induction ticks as [| w rest IH]; intros st; simpl.
  - destruct (running st); reflexivity.
  - destruct (running st); [| reflexivity].
    pose proof (tick_starts_owed w st) as Ht.
    destruct (tick_summary cfg w st) as (_ & Hf & _).
    unfold state_of, trace_of in *.
    destruct (tick cfg w st) as [[[[] | e] s1] t1]; simpl in *;
      [| exact Ht].
    specialize (IH s1).
    destruct (run_loop cfg rest s1) as [[o s2] t2]; simpl in *.
    rewrite starts_owed_app, Ht, <- Hf. exact IH.
Qed.

(** How an iteration that returns leaves [running]. *)
Lemma tick_running w st :
  outcome_of (tick cfg w st) = Ret tt ->
  running (state_of (tick cfg w st)) =
    match during_sleep w with
    | Signalled _ => false
    | _ => running st
    end.
Proof.
  unfold tick. unfold_monad.
  assert (Hsleep : forall s,
    fst (fst (sleep_interval cfg w s)) = Ret tt ->
    running (snd (fst (sleep_interval cfg w s))) =
      match during_sleep w with Signalled _ => false | _ => running s end).
  { intros s. unfold sleep_interval. unfold_m.
    destruct (during_sleep w); simpl; [reflexivity .. | discriminate]. }
  destruct (_get_gpu_intensive_processes cfg (snapshot w))
    as [[| p ps] | e]; simpl; [| | discriminate].
  - destruct (on_clear_summary cfg w st) as (_ & _ & _ & Hr).
    unfold_monad.
    destruct (on_clear cfg w st) as [[[[] | e] s1] t1]; simpl in *;
      [| discriminate].
    specialize (Hsleep s1).
    destruct (sleep_interval cfg w s1) as [[o s2] t2]; simpl in *.
    intros Ho. rewrite (Hsleep Ho), Hr. reflexivity.
  - destruct (on_contention_summary cfg w (p :: ps) st) as (_ & _ & _ & Hr).
    unfold_monad.
    destruct (on_contention cfg w (p :: ps) st) as [[[[] | e] s1] t1];
      simpl in *; [| discriminate].
    specialize (Hsleep s1).
    destruct (sleep_interval cfg w s1) as [[o s2] t2]; simpl in *.
    intros Ho. rewrite (Hsleep Ho), Hr. reflexivity.
Qed.

End Run.

(** X13. The flag is the account of the commands: at every point where
    [run] stands (loop pending, left, or ended by an exception),
    [vllm_was_running] is what the stop and start commands issued so far
    make it: raised by the last successful stop, lowered by the last
    successful start, untouched by failed ones. *)
Theorem flag_tracks_commands (cfg : Config) (ticks : list TickInput)
    (cleanup_start : CmdResult) (st : State) :
  vllm_was_running (state_of (run cfg ticks cleanup_start st))
  = owed_after (vllm_was_running st)
      (trace_of (run cfg ticks cleanup_start st)).
Proof.
  rewrite run_parts.
  pose proof (run_loop_flag cfg ticks st) as Hloop.
  destruct (cleanup_summary cfg cleanup_start
              (state_of (run_loop cfg ticks st))) as [_ Hclean].
  unfold state_of, trace_of in *.
  destruct (run_loop cfg ticks st) as [[o st1] tr1]; simpl in *.
  assert (Hexit : forall caught : bool,
    vllm_was_running (snd (fst (cleanup cfg cleanup_start st1))) =
    owed_after (vllm_was_running st)
      (tr1 ++ (if caught then [Log INFO MsgInterrupted] else [])
       ++ snd (cleanup cfg cleanup_start st1))).
  { intros caught. rewrite !owed_after_app, <- Hloop.
    destruct caught; simpl; exact Hclean. }
  destruct o as [[] | []]; simpl;
    first [exact Hloop | exact (Hexit false) | exact (Hexit true)].
Qed.

(** X14. The coordinator never starts a service it has not stopped: in
    the trace of [run], cleanup included, every start command comes
    after a successful stop command of the coordinator with no
    successful start in between. This holds for every behaviour of the
    outside world. *)
Theorem never_starts_unowed (cfg : Config) (ticks : list TickInput)
    (cleanup_start : CmdResult) :
  starts_owed false (trace_of (run cfg ticks cleanup_start init_state))
  = true.
Proof.
  rewrite run_parts.
  pose proof (run_loop_flag cfg ticks init_state) as Hflag.
  pose proof (run_loop_starts_owed cfg ticks init_state) as Hloop.
  destruct (cleanup_summary cfg cleanup_start
              (state_of (run_loop cfg ticks init_state))) as [Hc _].
  unfold state_of, trace_of in *.
  destruct (run_loop cfg ticks init_state) as [[o st1] tr1]; simpl in *.
  assert (Hexit : forall caught : bool,
    starts_owed false
      (tr1 ++ (if caught then [Log INFO MsgInterrupted] else [])
       ++ snd (cleanup cfg cleanup_start st1)) = true).
  { intros caught. rewrite !starts_owed_app, Hloop, <- Hflag.
    assert (Hcl : starts_owed (vllm_was_running st1)
                    (snd (cleanup cfg cleanup_start st1)) = true).
    { rewrite starts_owed_commands, Hc.
      destruct (vllm_was_running st1); reflexivity. }
    destruct caught; simpl; exact Hcl. }
  destruct o as [[] | []]; simpl;
    first [exact Hloop | exact (Hexit false) | exact (Hexit true)].
Qed.

(** X15. Cancellation is cooperative: when a signal is handled during
    the sleep of an iteration, that iteration is carried out in full and
    the loop is left right after it; the answers prepared for later
    iterations are never asked for. *)
Theorem signal_ends_loop (cfg : Config) (w : TickInput)
    (rest : list TickInput) (st : State) (signum : Z) :
  running st = true ->
  during_sleep w = Signalled signum ->
  outcome_of (tick cfg w st) = Ret tt ->
  run_loop cfg (w :: rest) st
  = (Ret LoopExited, state_of (tick cfg w st), trace_of (tick cfg w st)) /\
  running (state_of (tick cfg w st)) = false.
Proof.
  intros Hrun Hsig Hout.
  pose proof (tick_running cfg w st Hout) as Hr. rewrite Hsig in Hr.
  split; [| exact Hr].
  rewrite (run_loop_cons cfg w rest st Hrun).
  unfold outcome_of, state_of, trace_of in *.
  destruct (tick cfg w st) as [[[[] | e] s1] t1]; simpl in *;
    [| discriminate].
  rewrite (run_loop_stopped cfg rest s1 Hr), app_nil_r. reflexivity.
Qed.

Lemma signal_ends_loop_witness :
  run_loop default_config
    (with_sleep (Signalled 15) (calm [rdb_build] 9) :: [calm [sshd] 12])
    (mkState false (Some 0%float) true)
  = (Ret LoopExited,
     state_of (tick default_config
                 (with_sleep (Signalled 15) (calm [rdb_build] 9))
                 (mkState false (Some 0%float) true)),
     trace_of (tick default_config
                 (with_sleep (Signalled 15) (calm [rdb_build] 9))
                 (mkState false (Some 0%float) true))) /\
  running (state_of (tick default_config
                       (with_sleep (Signalled 15) (calm [rdb_build] 9))
                       (mkState false (Some 0%float) true))) = false.
Proof.
  apply (signal_ends_loop default_config
           (with_sleep (Signalled 15) (calm [rdb_build] 9))
           [calm [sshd] 12] (mkState false (Some 0%float) true) 15).
  - reflexivity.
  - reflexivity.
  - vm_compute. reflexivity.
Defined.

(** X16. A signal is the only way out of the loop without an
    exception: when the loop, entered with [running] true, is left
    normally, one of the iterations it was given had a signal handled
    during its sleep. *)
Theorem loop_left_by_signal_only (cfg : Config) (ticks : list TickInput)
    (st : State) :
  running st = true ->
  outcome_of (run_loop cfg ticks st) = Ret LoopExited ->
  exists w signum, In w ticks /\ during_sleep w = Signalled signum.
Proof.
  revert st. induction ticks as [| w rest IH]; intros st Hrun Hout.
  - simpl in Hout. rewrite Hrun in Hout. discriminate.
  - rewrite (run_loop_cons cfg w rest st Hrun) in Hout.
    pose proof (tick_running cfg w st) as Hr.
    unfold outcome_of, state_of in *.
    destruct (tick cfg w st) as [[[[] | e] s1] t1]; simpl in *;
      [| discriminate].
    specialize (Hr eq_refl).
    destruct (during_sleep w) as [| signum | e] eqn:Hs.
    + destruct (IH s1) as (w' & n & Hin & Hw').
      * congruence.
      * destruct (run_loop cfg rest s1) as [[o s2] t2]. exact Hout.
      * exists w', n. split; [right; exact Hin | exact Hw'].
    + exists w, signum. split; [left; reflexivity | exact Hs].
    + destruct (IH s1) as (w' & n & Hin & Hw').
      * congruence.
      * destruct (run_loop cfg rest s1) as [[o s2] t2]. exact Hout.
      * exists w', n. split; [right; exact Hin | exact Hw'].
Qed.

Lemma loop_left_by_signal_only_witness :
  exists w signum,
    In w [calm [sshd] 0; with_sleep (Signalled 2) (calm [sshd] 3);
          calm [sshd] 6]
    /\ during_sleep w = Signalled signum.
Proof.
  apply (loop_left_by_signal_only default_config
           [calm [sshd] 0; with_sleep (Signalled 2) (calm [sshd] 3);
            calm [sshd] 6] init_state).
  - reflexivity.
  - vm_compute. reflexivity.
Defined.

(** X17. A [KeyboardInterrupt] that escapes an iteration is caught:
    [run] records it, runs the [finally] block and returns, unless the
    [finally] block itself raises. *)
Theorem keyboard_interrupt_returns (cfg : Config) (pre rest : list TickInput)
    (w : TickInput) (cleanup_start : CmdResult) (st0 st st1 : State)
    (tr0 tr1 : list Event) :
  run_loop cfg pre st0 = (Ret LoopPending, st, tr0) ->
  tick cfg w st = (Raise KeyboardInterrupt, st1, tr1) ->
  run cfg (pre ++ w :: rest) cleanup_start st0
  = (match outcome_of (cleanup cfg cleanup_start st1) with
     | Ret _ => Ret LoopExited
     | Raise e => Raise e
     end,
     state_of (cleanup cfg cleanup_start st1),
     trace_of (banner cfg st0) ++ (tr0 ++ tr1)
     ++ [Log INFO MsgInterrupted]
     ++ trace_of (cleanup cfg cleanup_start st1)).
Proof.
  intros Hpre Htick.
  rewrite run_parts.
  rewrite (run_loop_app cfg pre (w :: rest) st0 st tr0 Hpre).
  rewrite (run_loop_cons cfg w rest st (run_loop_pending cfg _ _ _ _ Hpre)).
  rewrite Htick. reflexivity.
Qed.

Lemma keyboard_interrupt_returns_witness :
  let cfg := default_config in
  let w := with_sleep (Interrupted KeyboardInterrupt) (calm [rdb_build] 9) in
  let st := mkState false (Some 0%float) true in
  let st1 := mkState true (Some 0%float) true in
  let tr1 := [IsActiveQuery (Exited 0); IsActiveQuery (Exited 0);
              Log INFO (MsgStopping "vllm.service"); StopCmd (Exited 0);
              Sleep 3; Sleep 3] in
  run cfg ([] ++ w :: [calm [sshd] 12]) (Exited 0) st
  = (match outcome_of (cleanup cfg (Exited 0) st1) with
     | Ret _ => Ret LoopExited
     | Raise e => Raise e
     end,
     state_of (cleanup cfg (Exited 0) st1),
     trace_of (banner cfg st) ++ ([] ++ tr1)
     ++ [Log INFO MsgInterrupted]
     ++ trace_of (cleanup cfg (Exited 0) st1)).
Proof.
  intros cfg w st st1 tr1.
  apply (keyboard_interrupt_returns cfg [] [calm [sshd] 12] w (Exited 0)
           st st st1 [] tr1).
  - reflexivity.
  - vm_compute. reflexivity.
Defined.

(** X18. Quiet iterations do nothing but sleep: with no GPU process and
    no contention recorded, and likewise with GPU processes seen before
    and the test [elapsed >= self.grace_period] failing on the float
    difference of the clock readings, the iteration asks the service
    manager nothing, issues no command, writes no log record and leaves
    the state alone; all that is left is the closing sleep (and a signal
    or exception during it). *)
Theorem quiet_tick (cfg : Config) (w : TickInput) (st : State) :
  (cleared cfg w = true /\ gpu_process_start_time st = None) \/
  (contended cfg w = true /\
   exists started,
     gpu_process_start_time st = Some started /\
     PrimFloat.leb (grace_period cfg)
       (PrimFloat.sub (now_check w) started) = false) ->
  tick cfg w st = sleep_interval cfg w st.
Proof.
  unfold tick, cleared, contended. unfold_monad.
  intros [[Hc Ht] | (Hc & started & Ht & Hlt)];
    destruct (_get_gpu_intensive_processes cfg (snapshot w))
      as [[| p ps] | e]; try discriminate;
    destruct st as [flag timer run]; simpl in Ht; subst timer.
  - unfold on_clear. unfold_monad. simpl.
    destruct (sleep_interval cfg w _) as [[o s2] t2]. reflexivity.
  - unfold on_contention. unfold_monad. simpl.
    rewrite Hlt. simpl.
    destruct (sleep_interval cfg w _) as [[o s2] t2]. reflexivity.
Qed.

Lemma quiet_tick_witness :
  tick default_config (calm [rdb_build] 5) (mkState false (Some 0%float) true)
  = sleep_interval default_config (calm [rdb_build] 5)
      (mkState false (Some 0%float) true).
Proof.
  apply (quiet_tick default_config (calm [rdb_build] 5)
           (mkState false (Some 0%float) true)).
  right. split; [vm_compute; reflexivity |].
  exists 0%float. split; reflexivity.
Defined.

(** X19. The resume and its settle delay: on the iteration on which
    contention clears with a resume owed, the timer is cleared and the
    end of the job logged first, then the coordinator sleeps 2 seconds,
    and only then is the start command issued. *)
Theorem resume_after_settle (cfg : Config) (w : TickInput) (st : State) :
  cleared cfg w = true ->
  gpu_process_start_time st <> None ->
  vllm_was_running st = true ->
  gpu_process_start_time (state_of (tick cfg w st)) = None /\
  exists after,
    trace_of (tick cfg w st)
    = [Log INFO MsgFinished; Sleep 2;
       Log INFO (MsgRestarting (vllm_service cfg)); StartCmd (start w)]
      ++ after.
Proof.
  intros Hc Ht Hflag. split.
  - destruct (tick_summary cfg w st) as (_ & _ & Htm). rewrite Htm.
    unfold tick_timer, cleared in *.
    destruct (_get_gpu_intensive_processes cfg (snapshot w))
      as [[| p ps] | e]; try discriminate. reflexivity.
  - unfold tick, cleared in *. unfold_monad.
    destruct (_get_gpu_intensive_processes cfg (snapshot w))
      as [[| p ps] | e]; try discriminate.
    destruct st as [flag [started |] run]; simpl in *; [| congruence].
    subst flag. unfold on_clear. unfold_monad. simpl.
    rewrite (start_vllm_owed cfg (start w)) by reflexivity.
    destruct (run_checked (start w)) as [[] | []]; simpl;
      try (eexists; reflexivity);
      destruct (sleep_interval cfg w _) as [[o s2] t2]; simpl;
      eexists; reflexivity.
Qed.

Lemma resume_after_settle_witness :
  gpu_process_start_time
    (state_of (tick default_config (calm [sshd] 20)
                 (mkState true (Some 0%float) true))) = None /\
  exists after,
    trace_of (tick default_config (calm [sshd] 20)
                (mkState true (Some 0%float) true))
    = [Log INFO MsgFinished; Sleep 2;
       Log INFO (MsgRestarting (vllm_service default_config));
       StartCmd (start (calm [sshd] 20))]
      ++ after.
Proof.
  apply (resume_after_settle default_config (calm [sshd] 20)
           (mkState true (Some 0%float) true)).
  - vm_compute. reflexivity.
  - discriminate.
  - reflexivity.
Defined.

(** X20. The stop and its settle delay: past the grace period, with the
    service reported active, the service manager is asked twice (by
    [run], then by [_stop_vllm]) before the stop command; when the
    command succeeds the flag goes up and the coordinator sleeps 3
    seconds before the sleep that closes the iteration. *)
Theorem stop_then_settle (cfg : Config) (w : TickInput) (st : State)
    (started : float) :
  contended cfg w = true ->
  gpu_process_start_time st = Some started ->
  PrimFloat.leb (grace_period cfg)
    (PrimFloat.sub (now_check w) started) = true ->
  active_run w = Exited 0 ->
  active_stop w = Exited 0 ->
  succeeded (stop w) = true ->
  vllm_was_running (state_of (tick cfg w st)) = true /\
  exists after,
    trace_of (tick cfg w st)
    = [IsActiveQuery (Exited 0); IsActiveQuery (Exited 0);
       Log INFO (MsgStopping (vllm_service cfg)); StopCmd (stop w);
       Sleep 3; Sleep (check_interval cfg)]
      ++ after.
Proof.
  intros Hc Ht Hg Har Has Hok.
  apply succeeded_run_checked in Hok.
  split.
  - destruct (tick_summary cfg w st) as (Hcmd & Hf & _).
    rewrite Hf, owed_after_commands, Hcmd.
    rewrite (stop_due cfg w st started Ht Hc); simpl;
      rewrite ?Har, ?Has; try reflexivity.
    + apply succeeded_run_checked in Hok. rewrite Hok. reflexivity.
    + exact Hg.
  - unfold tick, contended in *. unfold_monad.
    destruct (_get_gpu_intensive_processes cfg (snapshot w))
      as [[| p ps] | e]; try discriminate.
    destruct st as [flag timer run]; simpl in Ht; subst timer.
    unfold on_contention, _is_vllm_running. unfold_monad. simpl.
    rewrite Hg, Har, Has. simpl.
    rewrite (stop_vllm_active cfg (stop w)), Hok. simpl.
    unfold sleep_interval. unfold_m.
    destruct (during_sleep w); simpl; eexists; reflexivity.
Qed.

Lemma stop_then_settle_witness :
  vllm_was_running
    (state_of (tick default_config (calm [rdb_build] 9)
                 (mkState false (Some 0%float) true))) = true /\
  exists after,
    trace_of (tick default_config (calm [rdb_build] 9)
                (mkState false (Some 0%float) true))
    = [IsActiveQuery (Exited 0); IsActiveQuery (Exited 0);
       Log INFO (MsgStopping (vllm_service default_config));
       StopCmd (stop (calm [rdb_build] 9));
       Sleep 3; Sleep (check_interval default_config)]
      ++ after.
Proof.
  apply (stop_then_settle default_config (calm [rdb_build] 9)
           (mkState false (Some 0%float) true) 0%float).
  - vm_compute. reflexivity.
  - reflexivity.
  - reflexivity.
  - reflexivity.
  - reflexivity.
  - reflexivity.
Defined.

(** X21. The coordinator acts on contention with an active service
    only: if on every iteration either no GPU process is found or the
    service is not reported active to [run], then [run], cleanup
    included, issues no stop and no start command at all. *)
Theorem idle_or_inactive_issues_nothing (cfg : Config)
    (ticks : list TickInput) (cleanup_start : CmdResult) :
  (forall w, In w ticks ->
     cleared cfg w = true \/ succeeded (active_run w) = false) ->
  commands (trace_of (run cfg ticks cleanup_start init_state)) = [].
Proof.
  intros Hall.
  assert (Hloop : forall st,
    vllm_was_running st = false ->
    commands (trace_of (run_loop cfg ticks st)) = [] /\
    vllm_was_running (state_of (run_loop cfg ticks st)) = false).
  { induction ticks as [| w rest IH]; intros st Hflag; simpl.
    - destruct (running st); simpl; auto.
    - destruct (running st); simpl; auto.
      destruct (tick_summary cfg w st) as (Hcmd & Hf & _).
      assert (Hnone : tick_command cfg w st = []).
      { unfold tick_command, resume_due.
        destruct (Hall w (or_introl eq_refl)) as [Hc | Ha].
        - unfold cleared in Hc.
          destruct (_get_gpu_intensive_processes cfg (snapshot w))
            as [[| p ps] | e]; try discriminate.
          rewrite Hflag. destruct (gpu_process_start_time st); reflexivity.
        - destruct (_get_gpu_intensive_processes cfg (snapshot w))
            as [[| p ps] | e]; try reflexivity.
          + rewrite Hflag. destruct (gpu_process_start_time st); reflexivity.
          + rewrite Ha, andb_false_r. reflexivity. }
      rewrite Hnone in Hcmd.
      rewrite owed_after_commands, Hcmd in Hf. simpl in Hf.
      unfold state_of, trace_of in *.
      destruct (tick cfg w st) as [[[[] | e] s1] t1]; simpl in *;
        [| split; congruence].
      destruct (IH (fun w' H => Hall w' (or_intror H)) s1) as [Hc' Hf'];
        [congruence |].
      destruct (run_loop cfg rest s1) as [[o s2] t2]; simpl in *.
      rewrite commands_app, Hcmd, Hc'. auto. }
  destruct (Hloop init_state eq_refl) as [Hc Hf].
  destruct (cleanup_summary cfg cleanup_start
              (state_of (run_loop cfg ticks init_state))) as [Hcc _].
  rewrite Hf in Hcc.
  rewrite run_parts.
  unfold state_of, trace_of in *.
  destruct (run_loop cfg ticks init_state) as [[o st1] tr1]; simpl in *.
  assert (Hexit : forall caught : bool,
    commands (tr1 ++ (if caught then [Log INFO MsgInterrupted] else [])
              ++ snd (cleanup cfg cleanup_start st1)) = []).
  { intros caught. rewrite !commands_app, Hc, Hcc.
    destruct caught; reflexivity. }
  destruct o as [[] | []]; simpl;
    first [exact Hc | exact (Hexit false) | exact (Hexit true)].
Qed.

Lemma idle_or_inactive_issues_nothing_witness :
  commands (trace_of (run default_config
    [calm [sshd] 0; with_active (Exited 3) (calm [rdb_build] 3);
     with_active (NotRun OtherError) (calm [rdb_build] 20);
     with_sleep (Signalled 15) (calm [sshd] 23)]
    (Exited 0) init_state)) = [].
Proof.
  apply (idle_or_inactive_issues_nothing default_config
    [calm [sshd] 0; with_active (Exited 3) (calm [rdb_build] 3);
     with_active (NotRun OtherError) (calm [rdb_build] 20);
     with_sleep (Signalled 15) (calm [sshd] 23)]
    (Exited 0)).
  intros w Hin. simpl in Hin.
  destruct Hin as [<- | [<- | [<- | [<- | []]]]];
    first [left; vm_compute; reflexivity | right; reflexivity].
Defined.

(** * The entry point *)

(** X22. [main] looks at its first argument only. With [--help] or [-h]
    there it prints the usage text and builds no coordinator: nothing is
    asked of the service manager and nothing is done to the service. On
    every other command line (no argument, unknown arguments, a help
    flag further on) it runs the coordinator with the built-in
    configuration from the state of [__init__]. *)
Theorem main_help_first_argument_only (argv : list string)
    (ticks : list TickInput) (cleanup_start : CmdResult) :
  (main argv ticks cleanup_start = PrintedUsage usage <->
   nth_error argv 1 = Some "--help" \/ nth_error argv 1 = Some "-h") /\
  (main argv ticks cleanup_start <> PrintedUsage usage ->
   main argv ticks cleanup_start
   = RanCoordinator (run default_config ticks cleanup_start init_state)).
Proof.
  unfold main.
  destruct argv as [| arg0 [| arg1 rest]]; simpl.
  - split; [split; [discriminate | intros [H | H]; discriminate] | reflexivity].
  - split; [split; [discriminate | intros [H | H]; discriminate] | reflexivity].
  - rewrite orb_false_r.
    destruct (String.eqb arg1 "--help") eqn:E1; simpl.
    + apply String.eqb_eq in E1. subst arg1.
      split; [split; auto | congruence].
    + destruct (String.eqb arg1 "-h") eqn:E2.
      * apply String.eqb_eq in E2. subst arg1.
        split; [split; auto | congruence].
      * apply String.eqb_neq in E1, E2.
        split; [split; [discriminate |] | reflexivity].
        intros [H | H]; inversion H; congruence.
Qed.

Example main_help_in_second_position_runs :
  main ["gpu-coordinator"; "--verbose"; "--help"] [] (Exited 0)
  = RanCoordinator (run default_config [] (Exited 0) init_state)
  /\ main ["gpu-coordinator"; "-h"; "--verbose"] [] (Exited 0)
     = PrintedUsage usage.
Proof. split; reflexivity. Qed.
